(** * sqlite.cpp: a C++ wrapper over the SQLite C interface

    A shallow embedding of [sqlite.hpp] / [sqlite.cpp].  The engine (the
    [sqlite3_*] functions) is a black box: every native call is an event
    answered by an arbitrary engine, and is recorded in a trace.  The
    wrapper's objects ([SQLite], [SQLite::Statement]) are records whose
    methods are computations in a state-and-exception monad. *)

From stdpp Require Import base numbers strings list gmap pretty.

Open Scope Z_scope.

(** ** Values of the C interface *)

(** Handles ([sqlite3*], [sqlite3_stmt*], [const void*]) are addresses. *)
Definition ptr : Type := Z.
Definition nullptr : ptr := 0.

(** [if (p)] / [p != nullptr] on a pointer. *)
Definition is_set (p : ptr) : bool := negb (p =? nullptr).

(** A [double] is carried as its IEEE-754 binary64 bit pattern; the wrapper
    only passes doubles through, it never computes with them. *)
Definition double : Type := Z.

(** Result codes and constants of [sqlite3.h] used by the wrapper. *)
Definition SQLITE_OK : Z := 0.
Definition SQLITE_BUSY : Z := 5.
Definition SQLITE_LOCKED : Z := 6.
Definition SQLITE_MISUSE : Z := 21.
Definition SQLITE_ROW : Z := 100.
Definition SQLITE_DONE : Z := 101.

Definition SQLITE_INTEGER : Z := 1.
Definition SQLITE_FLOAT : Z := 2.
Definition SQLITE_TEXT : Z := 3.
Definition SQLITE_BLOB : Z := 4.
Definition SQLITE_NULL : Z := 5.

Definition SQLITE_CONFIG_SERIALIZED : Z := 3.
Definition SQLITE_PREPARE_PERSISTENT : Z := 1.

Definition SQLITE_OPEN_READONLY : Z := 0x1.
Definition SQLITE_OPEN_READWRITE : Z := 0x2.
Definition SQLITE_OPEN_CREATE : Z := 0x4.
Definition SQLITE_OPEN_URI : Z := 0x40.
Definition SQLITE_OPEN_MEMORY : Z := 0x80.
Definition SQLITE_OPEN_NOMUTEX : Z := 0x8000.
Definition SQLITE_OPEN_FULLMUTEX : Z := 0x10000.
Definition SQLITE_OPEN_SHAREDCACHE : Z := 0x20000.
Definition SQLITE_OPEN_PRIVATECACHE : Z := 0x40000.
Definition SQLITE_OPEN_NOFOLLOW : Z := 0x1000000.

(** [enum class OpenFlags] (sqlite.hpp:54-66): the underlying [int]. *)
Module OpenFlags.
Definition None : Z := 0.
Definition ReadOnly : Z := Z.shiftl 1 0.
Definition ReadWrite : Z := Z.shiftl 1 1.
Definition Create : Z := Z.shiftl 1 2.
Definition URI : Z := Z.shiftl 1 3.
Definition Memory : Z := Z.shiftl 1 4.
Definition NoMutex : Z := Z.shiftl 1 5.
Definition FullMutex : Z := Z.shiftl 1 6.
Definition SharedCache : Z := Z.shiftl 1 7.
Definition PrivateCache : Z := Z.shiftl 1 8.
Definition NoFollow : Z := Z.shiftl 1 9.
End OpenFlags.

(** [enum class DataType] (sqlite.hpp:68-74). *)
Inductive DataType := Integer | Float | Text | Blob | Null.

(** [to_string(SQLite::DataType)] (sqlite.cpp:6-21). *)
Definition to_string (type : DataType) : string :=
  match type with
  | Integer => "Integer"
  | Float => "Float"
  | Text => "Text"
  | Blob => "Blob"
  | Null => "Null"
  end.

(** [struct Blob] (sqlite.hpp:77-80): a borrowed (pointer, length) pair. *)
Record BlobT := mkBlob { data : ptr; size : Z }.

(** ** Strings *)

(** [std::to_string(int)]: the decimal rendering, with a minus sign for
    negative numbers. *)
Definition std_to_string (n : Z) : string := pretty n.

(** [s.empty()]. *)
Definition empty (s : string) : bool := bool_decide (s = "").

(** The first [n] bytes of the buffer [p], for [n] within its length. *)
Definition string_of_buffer (p : string) (n : Z) : string :=
  String.substring 0 (Z.to_nat n) p.

(** The conversion of a [size_t] or other integer to [int]: the value
    modulo 2^32, in the range of a 32-bit signed integer. *)
Definition to_int (n : Z) : Z := (n + 2 ^ 31) mod 2 ^ 32 - 2 ^ 31.

(** The terminating NUL of a C string. *)
Definition NUL : string := String Ascii.zero "".

(** [p ? p : ""] on a possibly null C string. *)
Definition or_empty (p : option string) : string := default "" p.

(** ** The error taxonomy (sqlite.hpp:15-52) *)

(** The argument of [std::runtime_error] in [Error]'s constructor
    (sqlite.hpp:18-19). *)
Definition Error_what (message sqlite_errmsg : string) (code extended_code : Z)
  : string :=
  ((((((if empty message then "" else message +:+ ", ")
        +:+ "SQLite error (") +:+ std_to_string code) +:+ ",")
        +:+ std_to_string extended_code) +:+ "): ") +:+ sqlite_errmsg.

(** The exception objects that leave the wrapper.  [SyntaxError],
    [BusyError] and [MisuseError] derive from [Error]; [OtherError] derives
    from [std::runtime_error] directly.  [length_error] is the standard
    library's [std::length_error], which the constructors of [std::string]
    throw; it is not of the wrapper's taxonomy. *)
Inductive exn :=
| Error (message sqlite_errmsg : string) (code extended_code : Z)
| SyntaxError (message sqlite_errmsg : string) (code extended_code : Z)
    (sql : string) (offset : Z)
| BusyError (message sqlite_errmsg : string) (code extended_code : Z)
| MisuseError (message sqlite_errmsg : string) (code extended_code : Z)
| OtherError (message : string)
| length_error (message : string).

(** The message format in the words of the specification:
    [[context, ]SQLite error (<code>,<extended_code>): <engine message>]. *)
Definition message_format (context engine_message : string)
    (code extended_code : Z) : string :=
  let body :=
    "SQLite error (" +:+ std_to_string code +:+ "," +:+
    std_to_string extended_code +:+ "): " +:+ engine_message in
  if decide (context = "") then body else context +:+ ", " +:+ body.

(** [e.what()]. *)
Definition what (e : exn) : string :=
  match e with
  | Error m s c x | SyntaxError m s c x _ _ | BusyError m s c x
  | MisuseError m s c x => Error_what m s c x
  | OtherError m => m
  | length_error m => m
  end.

(** The dynamic class of an exception object. *)
Inductive kind :=
| KError | KSyntaxError | KBusyError | KMisuseError | KOtherError
| Klength_error.

Definition kind_of (e : exn) : kind :=
  match e with
  | Error _ _ _ _ => KError
  | SyntaxError _ _ _ _ _ _ => KSyntaxError
  | BusyError _ _ _ _ => KBusyError
  | MisuseError _ _ _ _ => KMisuseError
  | OtherError _ => KOtherError
  | length_error _ => Klength_error
  end.

(** ** Native calls *)

(** The functions of the engine's C interface that the wrapper calls, each
    indexed by the type of what it hands back.  An out-parameter ([&db],
    [&stmt]) is part of the answer. *)
Inductive native : Type -> Type :=
| sqlite3_errcode (db : ptr) : native Z
| sqlite3_extended_errcode (db : ptr) : native Z
| sqlite3_errmsg (db : ptr) : native string
| sqlite3_error_offset (db : ptr) : native Z
| sqlite3_errstr (rc : Z) : native string
| sqlite3_threadsafe : native Z
| sqlite3_config (op : Z) : native Z
| sqlite3_open_v2 (filename : string) (flags : Z) : native (Z * ptr)
| sqlite3_close (db : ptr) : native Z
| sqlite3_exec (db : ptr) (sql : string) : native Z
| sqlite3_prepare_v3 (db : ptr) (sql : string) (nByte prepFlags : Z)
    : native (Z * ptr)
| sqlite3_finalize (stmt : ptr) : native Z
| sqlite3_db_handle (stmt : ptr) : native ptr
| sqlite3_column_count (stmt : ptr) : native Z
| sqlite3_column_name (stmt : ptr) (i : Z) : native (option string)
| sqlite3_bind_parameter_index (stmt : ptr) (name : string) : native Z
| sqlite3_bind_parameter_name (stmt : ptr) (i : Z) : native (option string)
| sqlite3_bind_int (stmt : ptr) (i v : Z) : native Z
| sqlite3_bind_int64 (stmt : ptr) (i v : Z) : native Z
| sqlite3_bind_double (stmt : ptr) (i : Z) (v : double) : native Z
| sqlite3_bind_text (stmt : ptr) (i : Z) (v : string) (n : Z) : native Z
| sqlite3_bind_blob (stmt : ptr) (i : Z) (v : ptr) (n : Z) : native Z
| sqlite3_column_type (stmt : ptr) (i : Z) : native Z
| sqlite3_column_decltype (stmt : ptr) (i : Z) : native (option string)
| sqlite3_column_origin_name (stmt : ptr) (i : Z) : native (option string)
| sqlite3_column_table_name (stmt : ptr) (i : Z) : native (option string)
| sqlite3_column_database_name (stmt : ptr) (i : Z) : native (option string)
| sqlite3_column_int (stmt : ptr) (i : Z) : native Z
| sqlite3_column_int64 (stmt : ptr) (i : Z) : native Z
| sqlite3_column_double (stmt : ptr) (i : Z) : native double
| sqlite3_column_text (stmt : ptr) (i : Z) : native (option string)
| sqlite3_column_blob (stmt : ptr) (i : Z) : native ptr
| sqlite3_column_bytes (stmt : ptr) (i : Z) : native Z
| sqlite3_step (stmt : ptr) : native Z
| sqlite3_reset (stmt : ptr) : native Z
| sqlite3_clear_bindings (stmt : ptr) : native Z.

(** One entry of the trace of native calls. *)
Definition call : Type := sigT native.
Definition called {X} (c : native X) : call := existT X c.

(** ** Outcomes and the monad of methods *)

(** How a call of a method ends: it returns, an exception leaves it,
    [std::terminate] ends the program (an exception reaching a [noexcept]
    boundary), or the behaviour is undefined from there on (the engine is
    handed a statement it has destroyed, or bytes are read past the end of
    a buffer). *)
Inductive outcome (A : Type) :=
| Returned (a : A)
| Raised (e : exn)
| Terminated
| Undefined.
Arguments Returned {A} a.
Arguments Raised {A} e.
Arguments Terminated {A}.
Arguments Undefined {A}.


(** ** A scripted engine

    An engine whose answers are read off a fixed script; it serves as the
    concrete engine wherever a statement is evaluated on an example. *)
Record script := Script {
  s_rc : Z;                          (* result code of every call that has one *)
  s_errcode : Z;                     (* sqlite3_errcode *)
  s_extended : Z;                    (* sqlite3_extended_errcode *)
  s_errmsg : string;                 (* sqlite3_errmsg, sqlite3_errstr *)
  s_offset : Z;                      (* sqlite3_error_offset *)
  s_handle : ptr;                    (* what open / prepare / db_handle give *)
  s_columns : list (option string);  (* the column names *)
  s_int : Z;                         (* every integer-valued read *)
  s_text : option string;            (* every text-valued read *)
}.

Definition scripted (X : Type) (c : native X) : script -> X * script :=
  match c in native X return script -> X * script with
  | sqlite3_errcode _ => fun s => (s_errcode s, s)
  | sqlite3_extended_errcode _ => fun s => (s_extended s, s)
  | sqlite3_errmsg _ => fun s => (s_errmsg s, s)
  | sqlite3_error_offset _ => fun s => (s_offset s, s)
  | sqlite3_errstr _ => fun s => (s_errmsg s, s)
  | sqlite3_threadsafe => fun s => (s_int s, s)
  | sqlite3_config _ => fun s => (s_rc s, s)
  | sqlite3_open_v2 _ _ => fun s => ((s_rc s, s_handle s), s)
  | sqlite3_close _ => fun s => (s_rc s, s)
  | sqlite3_exec _ _ => fun s => (s_rc s, s)
  | sqlite3_prepare_v3 _ _ _ _ => fun s => ((s_rc s, s_handle s), s)
  | sqlite3_finalize _ => fun s => (s_rc s, s)
  | sqlite3_db_handle _ => fun s => (s_handle s, s)
  | sqlite3_column_count _ => fun s => (Z.of_nat (length (s_columns s)), s)
  | sqlite3_column_name _ i =>
      fun s => (default None (s_columns s !! Z.to_nat i), s)
  | sqlite3_bind_parameter_index _ _ => fun s => (s_int s, s)
  | sqlite3_bind_parameter_name _ _ => fun s => (s_text s, s)
  | sqlite3_bind_int _ _ _ => fun s => (s_rc s, s)
  | sqlite3_bind_int64 _ _ _ => fun s => (s_rc s, s)
  | sqlite3_bind_double _ _ _ => fun s => (s_rc s, s)
  | sqlite3_bind_text _ _ _ _ => fun s => (s_rc s, s)
  | sqlite3_bind_blob _ _ _ _ => fun s => (s_rc s, s)
  | sqlite3_column_type _ _ => fun s => (s_int s, s)
  | sqlite3_column_decltype _ _ => fun s => (s_text s, s)
  | sqlite3_column_origin_name _ _ => fun s => (s_text s, s)
  | sqlite3_column_table_name _ _ => fun s => (s_text s, s)
  | sqlite3_column_database_name _ _ => fun s => (s_text s, s)
  | sqlite3_column_int _ _ => fun s => (s_int s, s)
  | sqlite3_column_int64 _ _ => fun s => (s_int s, s)
  | sqlite3_column_double _ _ => fun s => (s_int s, s)
  | sqlite3_column_text _ _ => fun s => (s_text s, s)
  | sqlite3_column_blob _ _ => fun s => (s_handle s, s)
  | sqlite3_column_bytes _ _ =>
      fun s => (Z.of_nat (String.length (or_empty (s_text s))), s)
  | sqlite3_step _ => fun s => (s_rc s, s)
  | sqlite3_reset _ => fun s => (s_rc s, s)
  | sqlite3_clear_bindings _ => fun s => (s_rc s, s)
  end.

(** An engine that reports a syntax error at offset 0 on every call. *)
Definition syntax_script : script :=
  Script 1 1 1 "near SELEC: syntax error" 0 7 [] 0 None.

(** An engine that reports [SQLITE_BUSY] on every call. *)
Definition busy_script : script :=
  Script 5 5 5 "database is locked" (-1) 7 [] 0 None.

(** An engine that reports [SQLITE_LOCKED] on every call. *)
Definition locked_script : script :=
  Script 6 6 262 "database table is locked" (-1) 7 [] 0 None.

(** An engine on which every call succeeds; a statement has the three
    columns [id], [name], [id], and every read finds a NULL. *)
Definition ok_script : script :=
  Script 0 0 0 "not an error" (-1) 7 [Some "id"; Some "name"; Some "id"] 0 None.

(** An engine on which every call succeeds, and every read of a text
    finds the three bytes [abc]. *)
Definition text_script : script :=
  Script 0 0 0 "not an error" (-1) 7 [Some "name"] 0 (Some "abc").

(** An engine on which a step finds a row. *)
Definition row_script : script :=
  Script 100 100 100 "another row available" (-1) 7 [Some "id"] 0 None.

(** An engine that cannot open the database file, and hands out a handle
    all the same. *)
Definition cantopen_script : script :=
  Script 14 14 14 "unable to open database file" (-1) 7 [] 0 None.

(** An engine that refuses with [SQLITE_MISUSE]. *)
Definition misuse_script : script :=
  Script 21 21 21 "bad parameter or other API misuse" (-1) 7 [] 0 None.

(** ** The wrapper *)

Section Wrapper.

(** The engine: a state and its answer to every native call. *)
Variable E : Type.
Variable react : forall X, native X -> E -> X * E.

(** Whether the translation unit is compiled with
    [SQLITE_ENABLE_COLUMN_METADATA] defined. *)
Variable COLUMN_METADATA : bool.

(** The engine and the native calls made so far, oldest first. *)
Record world := World { engine : E; trace : list call }.

(** A method on an object of type [S] giving an [A].  The object and the
    world keep what was done to them before an exception was thrown. *)
Definition M (S A : Type) : Type := S -> world -> outcome A * S * world.

Definition ret {S A} (a : A) : M S A := fun s w => (Returned a, s, w).

Definition bind {S A B} (m : M S A) (k : A -> M S B) : M S B :=
  fun s w =>
    match m s w with
    | (Returned a, s', w') => k a s' w'
    | (Raised e, s', w') => (Raised e, s', w')
    | (Terminated, s', w') => (Terminated, s', w')
    | (Undefined, s', w') => (Undefined, s', w')
    end.

Definition throw {S A} (e : exn) : M S A := fun s w => (Raised e, s, w).

Definition get {S} : M S S := fun s w => (Returned s, s, w).
Definition put {S} (s : S) : M S unit := fun _ w => (Returned tt, s, w).

(** A native call: the engine answers, the call joins the trace. *)
Definition native_call {S X} (c : native X) : M S X :=
  fun s w =>
    let '(x, e) := react X c (engine w) in
    (Returned x, s, World e (trace w ++ [called c])).

(** A native call on a statement that [sqlite3_finalize] has destroyed:
    the call is made, and the engine's interface leaves what follows
    undefined. *)
Definition native_call_on_destroyed {S X} (c : native X) : M S X :=
  fun s w => (Undefined, s, World (engine w) (trace w ++ [called c])).

(** Reading bytes that lie past the end of a buffer. *)
Definition read_past_the_end {S A} : M S A := fun s w => (Undefined, s, w).

(** A [noexcept] function: an exception that would leave it ends the
    program ([std::terminate]); every other outcome is the function's. *)
Definition noexcept {S A} (m : M S A) : M S A :=
  fun s w =>
    match m s w with
    | (Raised _, s', w') => (Terminated, s', w')
    | r => r
    end.

(** A constructor run on the freshly initialised members [init]: the new
    object is the result; when the constructor throws there is no object. *)
Definition construct {S T} (init : T) (ctor : M T unit) : M S T :=
  fun s w =>
    match ctor init w with
    | (Returned _, o, w') => (Returned o, s, w')
    | (Raised e, _, w') => (Raised e, s, w')
    | (Terminated, _, w') => (Terminated, s, w')
    | (Undefined, _, w') => (Undefined, s, w')
    end.

(** Objects at addresses, for the members that take a second object of the
    same class and compare [this] with its address. *)
Definition heap (T : Type) : Type := nat -> T.

Definition update {T} (a : nat) (o : T) (h : heap T) : heap T :=
  fun b => if (b =? a)%nat then o else h b.

(** Run a method on the object at address [a]. *)
Definition on {T A} (a : nat) (m : M T A) : M (heap T) A :=
  fun h w => let '(r, o, w') := m (h a) w in (r, update a o h, w').

Notation "'do' x <- m ; k" := (bind m (fun x => k))
  (at level 10, x pattern, m at level 100, k at level 200).

(** [std::string(p, n)] for a C string [p] (its bytes, followed by the
    terminating NUL) and an [int n]: [n] becomes a [size_t], so that a
    negative [n] exceeds [max_size()] and [std::length_error] is thrown;
    up to the length of [p], and one more for the NUL, the first [n] bytes
    are copied; beyond that, bytes past the end of the buffer are read.
    The text of the [std::length_error] is the standard library's own
    (here that of libstdc++). *)
Definition std_string {S} (p : string) (n : Z) : M S string :=
  if n <? 0 then throw (length_error "basic_string::_M_create")
  else if n <=? Z.of_nat (String.length p) then ret (string_of_buffer p n)
  else if n =? Z.of_nat (String.length p) + 1 then ret (p +:+ NUL)
  else read_past_the_end.

(** *** Error classification (sqlite.cpp:23-39) *)

(** [throwSQLiteError(db, message, sql)]; [sql] defaults to [""]. *)
Definition throwSQLiteError {S} (db : ptr) (message sql : string) : M S unit :=
  do code <- native_call (sqlite3_errcode db);
  do extended_code <- native_call (sqlite3_extended_errcode db);
  do errmsg <- native_call (sqlite3_errmsg db);
  do offset <- (if empty sql then ret (-1)
                else native_call (sqlite3_error_offset db));
  if -1 <? offset then
    throw (SyntaxError message errmsg code extended_code sql offset)
  else if code =? SQLITE_BUSY then
    throw (BusyError message errmsg code extended_code)
  else if code =? SQLITE_MISUSE then
    throw (MisuseError message errmsg code extended_code)
  else
    throw (Error message errmsg code extended_code).


(** *** class SQLite: the connection *)

(** The one data member, [struct sqlite3* db = nullptr] (sqlite.hpp:279). *)
Record SQLite := mkSQLite { db : ptr }.

(** [SQLite() {}]: the default member initialiser alone. *)
Definition SQLite_default : SQLite := mkSQLite nullptr.

(** [ensure()] (sqlite.hpp:283). *)
Definition SQLite_ensure : M SQLite unit :=
  do this <- get;
  if db this =? nullptr then
    throw (OtherError "SQLite database connection not initialized")
  else ret tt.

(** [static_cast<int>(flags) & static_cast<int>(flag)] as a condition. *)
Definition has_flag (flags flag : Z) : bool := negb (Z.land flags flag =? 0).

(** [toSQLiteOpenFlags] (sqlite.cpp:79-94). *)
Definition toSQLiteOpenFlags (flags : Z) : Z :=
  let add flag bits sqliteFlags :=
    if has_flag flags flag then Z.lor sqliteFlags bits else sqliteFlags in
  let sqliteFlags := 0 in
  let sqliteFlags := add OpenFlags.ReadOnly SQLITE_OPEN_READONLY sqliteFlags in
  let sqliteFlags := add OpenFlags.ReadWrite SQLITE_OPEN_READWRITE sqliteFlags in
  let sqliteFlags := add OpenFlags.Create SQLITE_OPEN_CREATE sqliteFlags in
  let sqliteFlags := add OpenFlags.URI SQLITE_OPEN_URI sqliteFlags in
  let sqliteFlags := add OpenFlags.Memory SQLITE_OPEN_MEMORY sqliteFlags in
  let sqliteFlags := add OpenFlags.NoMutex SQLITE_OPEN_NOMUTEX sqliteFlags in
  let sqliteFlags := add OpenFlags.FullMutex SQLITE_OPEN_FULLMUTEX sqliteFlags in
  let sqliteFlags :=
    add OpenFlags.SharedCache SQLITE_OPEN_SHAREDCACHE sqliteFlags in
  let sqliteFlags :=
    add OpenFlags.PrivateCache SQLITE_OPEN_PRIVATECACHE sqliteFlags in
  let sqliteFlags := add OpenFlags.NoFollow SQLITE_OPEN_NOFOLLOW sqliteFlags in
  sqliteFlags.

(** [SQLite::open] (sqlite.cpp:59-64).  The engine writes through [&db]
    before its result code is looked at. *)
Definition SQLite_open (dbName : string) (flags : Z) : M SQLite unit :=
  let sqliteFlags := toSQLiteOpenFlags flags in
  do (rc, written) <- native_call (sqlite3_open_v2 dbName sqliteFlags);
  do _ <- put (mkSQLite written);
  if negb (rc =? SQLITE_OK) then
    do this <- get;
    throwSQLiteError (db this) "failed to open database" ""
  else ret tt.

(** [SQLite::close] (sqlite.cpp:66-73). *)
Definition SQLite_close : M SQLite unit :=
  do this <- get;
  if is_set (db this) then
    do rc <- native_call (sqlite3_close (db this));
    do _ <- (if negb (rc =? SQLITE_OK) then
               throwSQLiteError (db this) "failed to close connection" ""
             else ret tt);
    put (mkSQLite nullptr)
  else ret tt.

(** [SQLite::~SQLite] (sqlite.cpp:75-77).  A destructor is [noexcept]
    unless declared otherwise. *)
Definition SQLite_dtor : M SQLite unit := noexcept SQLite_close.

(** [SQLite(const std::string&, OpenFlags)] (sqlite.hpp:86). *)
Definition SQLite_ctor {S} (dbName : string) (flags : Z) : M S SQLite :=
  construct SQLite_default (SQLite_open dbName flags).

(** [SQLite(SQLite&& other) noexcept] (sqlite.hpp:90), run on [other]; the
    new object is the result. *)
Definition SQLite_move_ctor : M SQLite SQLite :=
  noexcept (
    do other <- get;
    let this := mkSQLite (db other) in
    do _ <- put (mkSQLite nullptr);
    ret this).

(** [operator=(SQLite&& other) noexcept] (sqlite.hpp:91) on the objects at
    the addresses [this] and [other]. *)
Definition SQLite_move_assign (this other : nat) : M (heap SQLite) unit :=
  noexcept (
    if negb (this =? other)%nat then
      do _ <- on this SQLite_close;
      do o <- on other get;
      do _ <- on this (put (mkSQLite (db o)));
      on other (put (mkSQLite nullptr))
    else ret tt).

(** [operator bool] (sqlite.hpp:276). *)
Definition SQLite_bool : M SQLite bool :=
  do this <- get; ret (is_set (db this)).

(** [SQLite::exec] (sqlite.cpp:321-327). *)
Definition SQLite_exec (sql : string) : M SQLite unit :=
  do _ <- SQLite_ensure;
  do this <- get;
  do result <- native_call (sqlite3_exec (db this) sql);
  if negb (result =? SQLITE_OK) then
    throwSQLiteError (db this) "failed to execute SQL query" sql
  else ret tt.

(** [execute] (sqlite.hpp:274). *)
Definition SQLite_execute (sql : string) : M SQLite unit := SQLite_exec sql.


(** [SQLite::configureSerialized] (sqlite.cpp:46-57): a
    [std::unique_ptr<Error>], null on success. *)
Definition SQLite_configureSerialized : M unit (option exn) :=
  do result <- native_call (sqlite3_config SQLITE_CONFIG_SERIALIZED);
  if negb (result =? SQLITE_OK) then
    do errstr <- native_call (sqlite3_errstr result);
    ret (Some (Error "failed to configure SQLite for serialized threading mode"
                 errstr result result))
  else ret None.

(** *** class SQLite::Statement *)

(** The data members (sqlite.hpp:253-255): the handle and the cached map
    from column name to column index. *)
Record Statement := mkStatement { stmt : ptr; columnIndices : gmap string Z }.

(** [Statement() {}]: null handle, empty map. *)
Definition Statement_default : Statement := mkStatement nullptr ∅.

Definition set_stmt (p : ptr) (this : Statement) : Statement :=
  mkStatement p (columnIndices this).
Definition set_columnIndices (m : gmap string Z) (this : Statement)
  : Statement :=
  mkStatement (stmt this) m.

Definition modify {S} (f : S -> S) : M S unit :=
  do s <- get; put (f s).

(** [ensure()] (sqlite.hpp:268). *)
Definition Statement_ensure : M Statement unit :=
  do this <- get;
  if stmt this =? nullptr then
    throw (OtherError "SQLite statement not initialized")
  else ret tt.

(** The body of the [for] loop of [initializeColumnIndices], for the [n]
    iterations starting at index [i]. *)
Fixpoint initializeColumnIndices_from (n : nat) (i : Z) : M Statement unit :=
  match n with
  | O => ret tt
  | S n' =>
      do this <- get;
      do columnName <- native_call (sqlite3_column_name (stmt this) i);
      do _ <- match columnName with
              | Some name =>
                  modify (fun this =>
                    set_columnIndices (<[name := i]> (columnIndices this)) this)
              | None => ret tt
              end;
      initializeColumnIndices_from n' (i + 1)
  end.

(** [initializeColumnIndices] (sqlite.cpp:132-140): [i] runs from 0 while
    [i < columnCount]. *)
Definition Statement_initializeColumnIndices : M Statement unit :=
  do this <- get;
  do columnCount <- native_call (sqlite3_column_count (stmt this));
  initializeColumnIndices_from (Z.to_nat columnCount) 0.

(** [Statement(sqlite3* db, const std::string& sql, bool persistent)]
    (sqlite.cpp:96-102). *)
Definition Statement_ctor (db : ptr) (sql : string) (persistent : bool)
  : M Statement unit :=
  let prepareFlags := if persistent then SQLITE_PREPARE_PERSISTENT else 0 in
  do (rc, written) <- native_call (sqlite3_prepare_v3 db sql (-1) prepareFlags);
  do _ <- modify (set_stmt written);
  do _ <- (if negb (rc =? SQLITE_OK) then
             throwSQLiteError db "failed to prepare statement" sql
           else ret tt);
  Statement_initializeColumnIndices.

(** [Statement::finalize] (sqlite.cpp:123-130).  [sqlite3_finalize]
    destroys the statement whatever result code it answers, so that the
    [sqlite3_db_handle(stmt)] of the failure branch is a call on a
    destroyed statement. *)
Definition Statement_finalize : M Statement unit :=
  do this <- get;
  if is_set (stmt this) then
    do rc <- native_call (sqlite3_finalize (stmt this));
    do _ <- (if negb (rc =? SQLITE_OK) then
               do h <- native_call_on_destroyed
                         (sqlite3_db_handle (stmt this));
               throwSQLiteError h "failed to finalize statement" ""
             else ret tt);
    modify (set_stmt nullptr)
  else ret tt.

(** [Statement::~Statement] (sqlite.cpp:104-106). *)
Definition Statement_dtor : M Statement unit := noexcept Statement_finalize.

(** [Statement(Statement&& other) noexcept] (sqlite.cpp:108-110), run on
    [other]: the map is copy-initialised from [other.columnIndices], which
    keeps its entries. *)
Definition Statement_move_ctor : M Statement Statement :=
  noexcept (
    do other <- get;
    let this := mkStatement (stmt other) (columnIndices other) in
    do _ <- modify (set_stmt nullptr);
    ret this).

(** What [std::move] leaves in the [unordered_map] it was taken from: the
    standard says valid but unspecified, the implementations leave it empty. *)
Definition moved_from_map : gmap string Z := ∅.

(** [operator=(Statement&& other) noexcept] (sqlite.cpp:112-121) on the
    objects at the addresses [this] and [other]. *)
Definition Statement_move_assign (this other : nat)
  : M (heap Statement) unit :=
  noexcept (
    if negb (this =? other)%nat then
      do _ <- on this Statement_finalize;
      do o <- on other get;
      do _ <- on this (modify (set_stmt (stmt o)));
      do _ <- on other (modify (set_stmt nullptr));
      do o <- on other get;
      do _ <- on this (modify (set_columnIndices (columnIndices o)));
      on other (modify (set_columnIndices moved_from_map))
    else ret tt).

(** [getColumnIndex] (sqlite.cpp:142-148). *)
Definition Statement_getColumnIndex (columnName : string) : M Statement Z :=
  do this <- get;
  match columnIndices this !! columnName with
  | Some index => ret index
  | None => throw (OtherError ("column not found: " +:+ columnName))
  end.

(** [getParamIndex] (sqlite.cpp:150-157). *)
Definition Statement_getParamIndex (paramName : string) : M Statement Z :=
  do _ <- Statement_ensure;
  do this <- get;
  do index <- native_call (sqlite3_bind_parameter_index (stmt this) paramName);
  if index =? 0 then
    throw (OtherError ("parameter not found: " +:+ paramName))
  else ret index.

(** [getParamName] (sqlite.cpp:159-166). *)
Definition Statement_getParamName (index : Z) : M Statement string :=
  do _ <- Statement_ensure;
  do this <- get;
  do name <- native_call (sqlite3_bind_parameter_name (stmt this) index);
  match name with
  | Some name => ret name
  | None => ret ""
  end.

(** The five types a parameter can be bound to: the overloads of [bind]. *)
Inductive bindable :=
| as_int (value : Z)
| as_int64 (value : Z)
| as_double (value : double)
| as_string (value : string)
| as_Blob (blob : BlobT).

(** The tail shared by the overloads of [bind]: the result code is
    compared with [SQLITE_OK]. *)
Definition bind_check (rc : Z) (message : string) : M Statement unit :=
  if negb (rc =? SQLITE_OK) then
    do this <- get;
    do h <- native_call (sqlite3_db_handle (stmt this));
    throwSQLiteError h message ""
  else ret tt.

(** [bind(int index, T value)], the five overloads (sqlite.cpp:168-201). *)
Definition Statement_bind (index : Z) (value : bindable) : M Statement unit :=
  do _ <- Statement_ensure;
  do this <- get;
  match value with
  | as_int value =>
      do rc <- native_call (sqlite3_bind_int (stmt this) index value);
      bind_check rc "failed to bind int"
  | as_int64 value =>
      do rc <- native_call (sqlite3_bind_int64 (stmt this) index value);
      bind_check rc "failed to bind int64"
  | as_double value =>
      do rc <- native_call (sqlite3_bind_double (stmt this) index value);
      bind_check rc "failed to bind double"
  | as_string value =>
      do rc <- native_call (sqlite3_bind_text (stmt this) index value
                              (to_int (Z.of_nat (String.length value))));
      bind_check rc "failed to bind text"
  | as_Blob blob =>
      do rc <- native_call (sqlite3_bind_blob (stmt this) index (data blob)
                              (size blob));
      bind_check rc "failed to bind blob"
  end.

(** [bind(const std::string& name, T value)] (sqlite.hpp:189-193). *)
Definition Statement_bind_name (name : string) (value : bindable)
  : M Statement unit :=
  do index <- Statement_getParamIndex name;
  Statement_bind index value.

(** [bindHelper] (sqlite.hpp:264-266) over the argument pack. *)
Fixpoint Statement_bindHelper (index : Z) (args : list bindable)
  : M Statement unit :=
  match args with
  | [] => ret tt
  | value :: args =>
      do _ <- Statement_bind index value;
      Statement_bindHelper (index + 1) args
  end.

(** [bindAll] (sqlite.hpp:196-197). *)
Definition Statement_bindAll (args : list bindable) : M Statement unit :=
  Statement_bindHelper 1 args.

(** [columnCount] (sqlite.cpp:203-206) and [count] (sqlite.hpp:206). *)
Definition Statement_columnCount : M Statement Z :=
  do _ <- Statement_ensure;
  do this <- get;
  native_call (sqlite3_column_count (stmt this)).

Definition Statement_count : M Statement Z := Statement_columnCount.

(** [getColumnType] (sqlite.cpp:208-218). *)
Definition Statement_getColumnType (index : Z) : M Statement DataType :=
  do _ <- Statement_ensure;
  do this <- get;
  do type <- native_call (sqlite3_column_type (stmt this) index);
  if type =? SQLITE_INTEGER then ret Integer
  else if type =? SQLITE_FLOAT then ret Float
  else if type =? SQLITE_TEXT then ret Text
  else if type =? SQLITE_BLOB then ret Blob
  else if type =? SQLITE_NULL then ret Null
  else throw (OtherError "unknown column type").

(** [getColumnDeclType] (sqlite.cpp:220-224). *)
Definition Statement_getColumnDeclType (index : Z) : M Statement string :=
  do _ <- Statement_ensure;
  do this <- get;
  do declType <- native_call (sqlite3_column_decltype (stmt this) index);
  ret (or_empty declType).

(** [getColumnName] (sqlite.cpp:226-230). *)
Definition Statement_getColumnName (index : Z) : M Statement string :=
  do _ <- Statement_ensure;
  do this <- get;
  do name <- native_call (sqlite3_column_name (stmt this) index);
  ret (or_empty name).

(** The [#else] branch of the three metadata getters. *)
Definition metadata_disabled {A} : M Statement A :=
  throw (OtherError
    "column metadata not enabled, to enable, define SQLITE_ENABLE_COLUMN_METADATA").

(** [getColumnOriginName] (sqlite.cpp:232-240). *)
Definition Statement_getColumnOriginName (index : Z) : M Statement string :=
  if COLUMN_METADATA then
    do _ <- Statement_ensure;
    do this <- get;
    do originName <- native_call (sqlite3_column_origin_name (stmt this) index);
    ret (or_empty originName)
  else metadata_disabled.

(** [getColumnTableName] (sqlite.cpp:242-250). *)
Definition Statement_getColumnTableName (index : Z) : M Statement string :=
  if COLUMN_METADATA then
    do _ <- Statement_ensure;
    do this <- get;
    do tableName <- native_call (sqlite3_column_table_name (stmt this) index);
    ret (or_empty tableName)
  else metadata_disabled.

(** [getColumnDatabaseName] (sqlite.cpp:252-260). *)
Definition Statement_getColumnDatabaseName (index : Z) : M Statement string :=
  if COLUMN_METADATA then
    do _ <- Statement_ensure;
    do this <- get;
    do dbName <- native_call (sqlite3_column_database_name (stmt this) index);
    ret (or_empty dbName)
  else metadata_disabled.

(** [getInt] (sqlite.cpp:263-266). *)
Definition Statement_getInt (index : Z) : M Statement Z :=
  do _ <- Statement_ensure;
  do this <- get;
  native_call (sqlite3_column_int (stmt this) index).

(** [getInt64] (sqlite.cpp:268-271). *)
Definition Statement_getInt64 (index : Z) : M Statement Z :=
  do _ <- Statement_ensure;
  do this <- get;
  native_call (sqlite3_column_int64 (stmt this) index).

(** [getDouble] (sqlite.cpp:273-276). *)
Definition Statement_getDouble (index : Z) : M Statement double :=
  do _ <- Statement_ensure;
  do this <- get;
  native_call (sqlite3_column_double (stmt this) index).

(** [getString] (sqlite.cpp:278-283). *)
Definition Statement_getString (index : Z) : M Statement string :=
  do _ <- Statement_ensure;
  do this <- get;
  do text <- native_call (sqlite3_column_text (stmt this) index);
  do size <- native_call (sqlite3_column_bytes (stmt this) index);
  match text with
  | Some text => std_string text size
  | None => ret ""
  end.

(** [getBlob] (sqlite.cpp:285-291). *)
Definition Statement_getBlob (index : Z) : M Statement BlobT :=
  do _ <- Statement_ensure;
  do this <- get;
  do data <- native_call (sqlite3_column_blob (stmt this) index);
  do size <- native_call (sqlite3_column_bytes (stmt this) index);
  ret (mkBlob data size).

(** [step] (sqlite.cpp:294-305). *)
Definition Statement_step : M Statement bool :=
  do _ <- Statement_ensure;
  do this <- get;
  do result <- native_call (sqlite3_step (stmt this));
  if result =? SQLITE_ROW then ret true
  else if result =? SQLITE_DONE then ret false
  else
    do h <- native_call (sqlite3_db_handle (stmt this));
    do _ <- throwSQLiteError h "failed to step statement" "";
    ret false.

(** [exec] and [execute] (sqlite.hpp:241-242). *)
Definition Statement_exec : M Statement bool := Statement_step.
Definition Statement_execute : M Statement bool := Statement_step.

(** [reset] (sqlite.cpp:307-312). *)
Definition Statement_reset : M Statement unit :=
  do _ <- Statement_ensure;
  do this <- get;
  do rc <- native_call (sqlite3_reset (stmt this));
  if negb (rc =? SQLITE_OK) then
    do h <- native_call (sqlite3_db_handle (stmt this));
    throwSQLiteError h "failed to reset statement" ""
  else ret tt.

(** [clearBindings] (sqlite.cpp:314-319). *)
Definition Statement_clearBindings : M Statement unit :=
  do _ <- Statement_ensure;
  do this <- get;
  do rc <- native_call (sqlite3_clear_bindings (stmt this));
  if negb (rc =? SQLITE_OK) then
    do h <- native_call (sqlite3_db_handle (stmt this));
    throwSQLiteError h "failed to clear bindings" ""
  else ret tt.

(** [reuse] (sqlite.hpp:247). *)
Definition Statement_reuse : M Statement unit :=
  do _ <- Statement_reset; Statement_clearBindings.

(** [operator bool] (sqlite.hpp:250). *)
Definition Statement_bool : M Statement bool :=
  do this <- get; ret (is_set (stmt this)).

(** [SQLite::prepare] (sqlite.hpp:271). *)
Definition SQLite_prepare (sql : string) (persistent : bool)
  : M SQLite Statement :=
  do _ <- SQLite_ensure;
  do this <- get;
  construct Statement_default (Statement_ctor (db this) sql persistent).

(** *** The views: class SQLite::Column and class Statement::Parameter *)

(** The types a column is read as. *)
Inductive read_type := t_int | t_int64 | t_double | t_string | t_Blob.

(** What an operation hands back to its caller. *)
Inductive value :=
| v_void
| v_bool (b : bool)
| v_int (n : Z)
| v_double (d : double)
| v_string (s : string)
| v_Blob (b : BlobT)
| v_DataType (t : DataType)
| v_Column (index : Z)
| v_Parameter (index : Z)
| v_Statement (s : Statement)
| v_Error_ptr (e : option exn).

(** The typed read of a column, [getInt] ... [getBlob]. *)
Definition Statement_read (T : read_type) (index : Z) : M Statement value :=
  match T with
  | t_int => do x <- Statement_getInt index; ret (v_int x)
  | t_int64 => do x <- Statement_getInt64 index; ret (v_int x)
  | t_double => do x <- Statement_getDouble index; ret (v_double x)
  | t_string => do x <- Statement_getString index; ret (v_string x)
  | t_Blob => do x <- Statement_getBlob index; ret (v_Blob x)
  end.

(** The members of [Column] (sqlite.hpp:114-140, 302-320): every one
    forwards to the statement at the view's index. *)
Inductive ColumnMethod :=
| Column_getter (T : read_type)      (* getInt() ... getBlob() *)
| Column_get (T : read_type)         (* get<T>() *)
| Column_operator (T : read_type)    (* operator T() *)
| Column_type
| Column_declType
| Column_name
| Column_tableName
| Column_databaseName
| Column_originName.

Definition Column_run (index : Z) (m : ColumnMethod) : M Statement value :=
  match m with
  | Column_getter T | Column_get T | Column_operator T =>
      Statement_read T index
  | Column_type => do x <- Statement_getColumnType index; ret (v_DataType x)
  | Column_declType =>
      do x <- Statement_getColumnDeclType index; ret (v_string x)
  | Column_name => do x <- Statement_getColumnName index; ret (v_string x)
  | Column_tableName =>
      do x <- Statement_getColumnTableName index; ret (v_string x)
  | Column_databaseName =>
      do x <- Statement_getColumnDatabaseName index; ret (v_string x)
  | Column_originName =>
      do x <- Statement_getColumnOriginName index; ret (v_string x)
  end.

(** The members of [Parameter] (sqlite.hpp:164-170). *)
Inductive ParameterMethod :=
| Parameter_assign (value : bindable)   (* operator=(T) *)
| Parameter_name.

Definition Parameter_run (index : Z) (m : ParameterMethod)
  : M Statement value :=
  match m with
  | Parameter_assign value =>
      do _ <- Statement_bind index value; ret v_void
  | Parameter_name => do x <- Statement_getParamName index; ret (v_string x)
  end.

(** *** The public operations *)

(** The two overloads of an accessor: by position, or by name. *)
Inductive selector := at_index (index : Z) | at_name (name : string).

(** The overloads by column name are [f(getColumnIndex(name))]
    (sqlite.hpp:202-236). *)
Definition column_at (c : selector) : M Statement Z :=
  match c with
  | at_index index => ret index
  | at_name name => Statement_getColumnIndex name
  end.

(** The overloads by parameter name are [f(getParamIndex(name))]
    (sqlite.hpp:180-193). *)
Definition param_at (p : selector) : M Statement Z :=
  match p with
  | at_index index => ret index
  | at_name name => Statement_getParamIndex name
  end.

(** The public operations on a [Statement], the special members aside;
    the members of the views count as operations on the statement they
    refer to. *)
Inductive StatementOp :=
| op_finalize
| op_getParamIndex (paramName : string)
| op_getParamName (index : Z)
| op_param (p : selector)
| op_bind (p : selector) (value : bindable)
| op_bindAll (args : list bindable)
| op_subscript (c : selector)
| op_columnCount
| op_count
| op_getColumnIndex (columnName : string)
| op_getColumnType (c : selector)
| op_getColumnDeclType (c : selector)
| op_getColumnName (index : Z)
| op_getColumnOriginName (c : selector)
| op_getColumnTableName (c : selector)
| op_getColumnDatabaseName (c : selector)
| op_read (T : read_type) (c : selector)
| op_step
| op_exec
| op_execute
| op_reset
| op_clearBindings
| op_reuse
| op_bool
| op_Column (index : Z) (m : ColumnMethod)
| op_Parameter (index : Z) (m : ParameterMethod).

Definition Statement_run (op : StatementOp) : M Statement value :=
  match op with
  | op_finalize => do _ <- Statement_finalize; ret v_void
  | op_getParamIndex paramName =>
      do x <- Statement_getParamIndex paramName; ret (v_int x)
  | op_getParamName index =>
      do x <- Statement_getParamName index; ret (v_string x)
  | op_param p => do index <- param_at p; ret (v_Parameter index)
  | op_bind p value =>
      do index <- param_at p;
      do _ <- Statement_bind index value; ret v_void
  | op_bindAll args => do _ <- Statement_bindAll args; ret v_void
  | op_subscript c => do index <- column_at c; ret (v_Column index)
  | op_columnCount => do x <- Statement_columnCount; ret (v_int x)
  | op_count => do x <- Statement_count; ret (v_int x)
  | op_getColumnIndex columnName =>
      do x <- Statement_getColumnIndex columnName; ret (v_int x)
  | op_getColumnType c =>
      do index <- column_at c;
      do x <- Statement_getColumnType index; ret (v_DataType x)
  | op_getColumnDeclType c =>
      do index <- column_at c;
      do x <- Statement_getColumnDeclType index; ret (v_string x)
  | op_getColumnName index =>
      do x <- Statement_getColumnName index; ret (v_string x)
  | op_getColumnOriginName c =>
      do index <- column_at c;
      do x <- Statement_getColumnOriginName index; ret (v_string x)
  | op_getColumnTableName c =>
      do index <- column_at c;
      do x <- Statement_getColumnTableName index; ret (v_string x)
  | op_getColumnDatabaseName c =>
      do index <- column_at c;
      do x <- Statement_getColumnDatabaseName index; ret (v_string x)
  | op_read T c => do index <- column_at c; Statement_read T index
  | op_step => do x <- Statement_step; ret (v_bool x)
  | op_exec => do x <- Statement_exec; ret (v_bool x)
  | op_execute => do x <- Statement_execute; ret (v_bool x)
  | op_reset => do _ <- Statement_reset; ret v_void
  | op_clearBindings => do _ <- Statement_clearBindings; ret v_void
  | op_reuse => do _ <- Statement_reuse; ret v_void
  | op_bool => do x <- Statement_bool; ret (v_bool x)
  | op_Column index m => Column_run index m
  | op_Parameter index m => Parameter_run index m
  end.

(** The public operations on a connection, the special members aside. *)
Inductive SQLiteOp :=
| op_open (dbName : string) (flags : Z)
| op_close
| op_prepare (sql : string) (persistent : bool)
| op_SQLite_exec (sql : string)
| op_SQLite_execute (sql : string)
| op_SQLite_bool.

Definition SQLite_run (op : SQLiteOp) : M SQLite value :=
  match op with
  | op_open dbName flags => do _ <- SQLite_open dbName flags; ret v_void
  | op_close => do _ <- SQLite_close; ret v_void
  | op_prepare sql persistent =>
      do x <- SQLite_prepare sql persistent; ret (v_Statement x)
  | op_SQLite_exec sql => do _ <- SQLite_exec sql; ret v_void
  | op_SQLite_execute sql => do _ <- SQLite_execute sql; ret v_void
  | op_SQLite_bool => do x <- SQLite_bool; ret (v_bool x)
  end.



(** ** Specification-side notions *)

(** The three parts of what a call leaves behind. *)
Definition outcome_of {S A} (r : outcome A * S * world) : outcome A := r.1.1.
Definition object_of {S A} (r : outcome A * S * world) : S := r.1.2.
Definition world_of {S A} (r : outcome A * S * world) : world := r.2.

(** The classification: a non-negative offset gives [SyntaxError] whatever
    the code; otherwise the primary code decides, [SQLITE_BUSY] giving
    [BusyError], [SQLITE_MISUSE] giving [MisuseError], and every other
    code the base [Error]. *)
Definition classified (message errmsg : string) (code extended_code : Z)
    (sql : string) (offset : Z) : exn :=
  if 0 <=? offset then
    SyntaxError message errmsg code extended_code sql offset
  else if code =? SQLITE_BUSY then BusyError message errmsg code extended_code
  else if code =? SQLITE_MISUSE then
    MisuseError message errmsg code extended_code
  else Error message errmsg code extended_code.

(** The engine's diagnostics for [db], asked in the order code, extended
    code, message, and then the offset when [with_offset] is set. *)
Definition diagnostics (db : ptr) (with_offset : bool) (e : E)
  : Z * Z * string * Z * E :=
  let '(code, e1) := react _ (sqlite3_errcode db) e in
  let '(extended_code, e2) := react _ (sqlite3_extended_errcode db) e1 in
  let '(errmsg, e3) := react _ (sqlite3_errmsg db) e2 in
  if with_offset then
    let '(offset, e4) := react _ (sqlite3_error_offset db) e3 in
    (code, extended_code, errmsg, offset, e4)
  else (code, extended_code, errmsg, -1, e3).

(** The native calls of one classification. *)
Definition diagnostic_calls (db : ptr) (with_offset : bool) : list call :=
  [called (sqlite3_errcode db); called (sqlite3_extended_errcode db);
   called (sqlite3_errmsg db)]
  ++ (if with_offset then [called (sqlite3_error_offset db)] else []).

(** The classification in the words of the specification, where a busy or
    a locked code gives [BusyError]. *)
Definition classified_as_claimed (message errmsg : string)
    (code extended_code : Z) (sql : string) (offset : Z) : exn :=
  if 0 <=? offset then
    SyntaxError message errmsg code extended_code sql offset
  else if (code =? SQLITE_BUSY) || (code =? SQLITE_LOCKED) then
    BusyError message errmsg code extended_code
  else if code =? SQLITE_MISUSE then
    MisuseError message errmsg code extended_code
  else Error message errmsg code extended_code.

(** The specification's words on a failing [exec], an engine call that is
    given SQL text: the offset is asked for, and the exception raised is
    the one the specification's classification builds. *)
Definition exec_classified_as_claimed : Prop :=
  forall (this : SQLite) (sql : string) (w : world),
    db this <> nullptr ->
    let '(result, e) := react _ (sqlite3_exec (db this) sql) (engine w) in
    result <> SQLITE_OK ->
    let '(code, extended_code, errmsg, offset, e') :=
      diagnostics (db this) true e in
    SQLite_exec sql this w =
    (Raised (classified_as_claimed "failed to execute SQL query" errmsg code
               extended_code sql offset),
     this,
     World e' (trace w ++ called (sqlite3_exec (db this) sql)
                 :: diagnostic_calls (db this) true)).

(** The zero or empty value of each type a column is read as. *)
Definition zero_value (T : read_type) : value :=
  match T with
  | t_int | t_int64 => v_int 0
  | t_double => v_double 0
  | t_string => v_string ""
  | t_Blob => v_Blob (mkBlob nullptr 0)
  end.

(** The engine has no value for column [index] read as [T]: it answers 0,
    0.0 (the all-zero bit pattern), a null text pointer, or a null blob
    pointer. *)
Definition absent (T : read_type) (stmt : ptr) (index : Z) (e : E) : Prop :=
  match T with
  | t_int => (react _ (sqlite3_column_int stmt index) e).1 = 0
  | t_int64 => (react _ (sqlite3_column_int64 stmt index) e).1 = 0
  | t_double => (react _ (sqlite3_column_double stmt index) e).1 = 0
  | t_string => (react _ (sqlite3_column_text stmt index) e).1 = None
  | t_Blob => (react _ (sqlite3_column_blob stmt index) e).1 = nullptr
  end.

(** What the engine's interface promises of [sqlite3_column_bytes], asked
    after the text or the blob of column [index]: the byte count of a text
    lies within the buffer just handed out, and that of a null blob is 0.
    The reads of numbers ask for no byte count. *)
Definition byte_count_within (T : read_type) (stmt : ptr) (index : Z) (e : E)
  : Prop :=
  match T with
  | t_int | t_int64 | t_double => True
  | t_string =>
      let '(text, e1) := react _ (sqlite3_column_text stmt index) e in
      match text with
      | Some text =>
          0 <= (react _ (sqlite3_column_bytes stmt index) e1).1
            <= Z.of_nat (String.length text)
      | None => True
      end
  | t_Blob =>
      let '(data, e1) := react _ (sqlite3_column_blob stmt index) e in
      data = nullptr -> (react _ (sqlite3_column_bytes stmt index) e1).1 = 0
  end.

(** The engine's answers to [sqlite3_column_name] for the [n] columns
    starting at column [i], asked in this order. *)
Fixpoint column_names (stmt : ptr) (n : nat) (i : Z) (e : E)
  : list (option string) * E :=
  match n with
  | O => ([], e)
  | S n' =>
      let '(name, e1) := react _ (sqlite3_column_name stmt i) e in
      let '(names, e2) := column_names stmt n' (i + 1) e1 in
      (name :: names, e2)
  end.

Fixpoint column_name_calls (stmt : ptr) (n : nat) (i : Z) : list call :=
  match n with
  | O => []
  | S n' => called (sqlite3_column_name stmt i) :: column_name_calls stmt n' (i + 1)
  end.

(** The map that sends each name of [names], the names of the columns
    [i], [i + 1], ..., to its column, a later column replacing an earlier
    one of the same name; names already in [m] stay unless replaced. *)
Fixpoint index_columns (names : list (option string)) (i : Z)
    (m : gmap string Z) : gmap string Z :=
  match names with
  | [] => m
  | name :: names =>
      index_columns names (i + 1)
        (match name with
         | Some name => <[name := i]> m
         | None => m
         end)
  end.

(** Column [k] is the last column called [name]. *)
Definition last_occurrence (names : list (option string)) (name : string)
    (k : nat) : Prop :=
  names !! k = Some (Some name) /\
  forall j, (k < j)%nat -> names !! j <> Some (Some name).

(** A method that leaves the part [f] of its object as it found it,
    however it ends. *)
Definition keeps {S A T} (f : S -> T) (m : M S A) : Prop :=
  forall s w, f (object_of (m s w)) = f s.

(** The five classes of the wrapper's taxonomy. *)
Definition of_the_taxonomy (x : exn) : Prop :=
  match x with
  | Error _ _ _ _ | SyntaxError _ _ _ _ _ _ | BusyError _ _ _ _
  | MisuseError _ _ _ _ | OtherError _ => True
  | length_error _ => False
  end.

(** A call that returns a result satisfying [Q] or raises an exception of
    the taxonomy: it neither ends the program, nor runs into undefined
    behaviour, nor lets a foreign exception through. *)
Definition ends_at {S A} (Q : A -> Prop) (m : M S A) (s : S) (w : world)
  : Prop :=
  match outcome_of (m s w) with
  | Returned a => Q a
  | Raised x => of_the_taxonomy x
  | Terminated | Undefined => False
  end.


(** *** Null handles *)

(** The operations on a statement whose body starts with [ensure()]; the
    overloads by parameter name reach it through [getParamIndex], and the
    three metadata getters have it only when the metadata is compiled in. *)
Definition Statement_checks_handle (op : StatementOp) : bool :=
  match op with
  | op_getParamIndex _ | op_getParamName _ => true
  | op_param (at_name _) => true
  | op_bind _ _ => true
  | op_bindAll (_ :: _) => true
  | op_columnCount | op_count => true
  | op_getColumnType (at_index _) | op_getColumnDeclType (at_index _) => true
  | op_getColumnName _ => true
  | op_getColumnOriginName (at_index _)
  | op_getColumnTableName (at_index _)
  | op_getColumnDatabaseName (at_index _) => COLUMN_METADATA
  | op_read _ (at_index _) => true
  | op_step | op_exec | op_execute | op_reset | op_clearBindings
  | op_reuse => true
  | op_Column _ (Column_tableName | Column_databaseName | Column_originName) =>
      COLUMN_METADATA
  | op_Column _ _ => true
  | op_Parameter _ _ => true
  | _ => false
  end.

(** The operations on a connection whose body starts with [ensure()]. *)
Definition SQLite_checks_handle (op : SQLiteOp) : bool :=
  match op with
  | op_prepare _ _ | op_SQLite_exec _ | op_SQLite_execute _ => true
  | _ => false
  end.

(** An operation that, on a statement with a null handle, raises
    [OtherError] before any native call and leaves the statement as it is. *)
Definition Statement_rejects_null (op : StatementOp) : Prop :=
  forall this w,
    stmt this = nullptr ->
    Statement_run op this w =
    (Raised (OtherError "SQLite statement not initialized"), this, w).

(** The same on a connection. *)
Definition SQLite_rejects_null (op : SQLiteOp) : Prop :=
  forall this w,
    db this = nullptr ->
    SQLite_run op this w =
    (Raised (OtherError "SQLite database connection not initialized"), this, w).

(** *** Moved-from objects *)

(** A connection that has been moved from: the source of a move
    construction, or the source of a move assignment that has returned. *)
Inductive SQLite_moved_from : SQLite -> Prop :=
| SQLite_moved_by_ctor other w :
    SQLite_moved_from (object_of (SQLite_move_ctor other w))
| SQLite_moved_by_assign this other objects w :
    this <> other ->
    outcome_of (SQLite_move_assign this other objects w) = Returned tt ->
    SQLite_moved_from (object_of (SQLite_move_assign this other objects w) other).

(** A statement that has been moved from. *)
Inductive Statement_moved_from : Statement -> Prop :=
| Statement_moved_by_ctor other w :
    Statement_moved_from (object_of (Statement_move_ctor other w))
| Statement_moved_by_assign this other objects w :
    this <> other ->
    outcome_of (Statement_move_assign this other objects w) = Returned tt ->
    Statement_moved_from
      (object_of (Statement_move_assign this other objects w) other).

(** A connection on which every operation raises [OtherError] for the
    missing handle. *)
Definition SQLite_unusable (this : SQLite) : Prop :=
  forall op w,
    SQLite_run op this w =
    (Raised (OtherError "SQLite database connection not initialized"), this, w).

(** *** Values and errors *)






(** *** Open flags *)

(** [operator|] on [OpenFlags] (sqlite.hpp:287-290). *)
Definition OpenFlags_or (lhs rhs : Z) : Z := Z.lor lhs rhs.

(** [operator&] on [OpenFlags] (sqlite.hpp:293-296): whether the two have a
    bit in common. *)
Definition OpenFlags_and (lhs rhs : Z) : bool := negb (Z.land lhs rhs =? 0).

(** The bit of [OpenFlags] and the bit of the engine's open flags that
    stands for it. *)
Definition open_flag_bits : list (Z * Z) :=
  [(0, 0); (1, 1); (2, 2); (3, 6); (4, 7); (5, 15); (6, 16); (7, 17);
   (8, 18); (9, 24)].

(** *** Column types *)

(** The engine's code of a dynamic type. *)
Definition DataType_code (type : DataType) : Z :=
  match type with
  | Integer => SQLITE_INTEGER
  | Float => SQLITE_FLOAT
  | Text => SQLITE_TEXT
  | Blob => SQLITE_BLOB
  | Null => SQLITE_NULL
  end.

(** *** Failures reported through a statement *)

(** What raising the classified error of the connection of statement [s]
    leaves behind: the connection is asked for, then its diagnostics; no
    SQL text is passed, so the offset is not asked for. *)
Definition raised_from_statement {A} (s : ptr) (message : string)
    (this : Statement) (w : world) : outcome A * Statement * world :=
  let '(h, e1) := react _ (sqlite3_db_handle s) (engine w) in
  let '(code, extended_code, errmsg, _, e2) := diagnostics h false e1 in
  (Raised (classified message errmsg code extended_code "" (-1)), this,
   World e2 (trace w ++ called (sqlite3_db_handle s)
               :: diagnostic_calls h false)).




(** *** What is raised *)

(** An exception as the classification builds it: a [SyntaxError] has SQL
    text and an offset into it, a [BusyError] or a [MisuseError] has the
    code of its class, and a plain [Error] has another code.  The
    classification builds no [OtherError] and no [length_error], of which
    nothing is asked. *)
Definition well_classified (x : exn) : Prop :=
  match x with
  | SyntaxError _ _ _ _ sql offset => sql <> "" /\ 0 <= offset
  | BusyError _ _ code _ => code = SQLITE_BUSY
  | MisuseError _ _ code _ => code = SQLITE_MISUSE
  | Error _ _ code _ => code <> SQLITE_BUSY /\ code <> SQLITE_MISUSE
  | OtherError _ | length_error _ => True
  end.

(** A method whose exceptions, when it raises, satisfy [P]. *)
Definition raises {S A} (P : exn -> Prop) (m : M S A) : Prop :=
  forall s w,
    match outcome_of (m s w) with
    | Raised x => P x
    | _ => True
    end.

(** *** Closing calls *)

(** Whether a native call is [sqlite3_close]. *)
Definition is_close (c : call) : bool :=
  match projT2 c with
  | sqlite3_close _ => true
  | _ => false
  end.

(** *** Access by column name *)

(** The operations that take a column by position or by name. *)
Definition column_accessors : list (selector -> StatementOp) :=
  [op_subscript; op_getColumnType; op_getColumnDeclType;
   op_getColumnOriginName; op_getColumnTableName; op_getColumnDatabaseName;
   op_read t_int; op_read t_int64; op_read t_double; op_read t_string;
   op_read t_Blob].

(** ** Evaluating the monad *)

Lemma append_assoc (s1 s2 s3 : string) :
  (s1 +:+ s2) +:+ s3 = s1 +:+ (s2 +:+ s3).
Proof.
  induction s1 as [|a s1 IH]; [reflexivity|].
  change (String a ((s1 +:+ s2) +:+ s3) = String a (s1 +:+ (s2 +:+ s3))).
  by rewrite IH.
Qed.

Lemma empty_spec (s : string) : empty s = true <-> s = "".
Proof. unfold empty. by rewrite bool_decide_eq_true. Qed.

Lemma empty_false (s : string) : s <> "" -> empty s = false.
Proof. intros H. unfold empty. by rewrite bool_decide_eq_false. Qed.

Lemma bind_Returned {S A B} (m : M S A) (k : A -> M S B) s w a s' w' :
  m s w = (Returned a, s', w') -> bind m k s w = k a s' w'.
Proof. intros H. unfold bind. by rewrite H. Qed.

Lemma bind_Raised {S A B} (m : M S A) (k : A -> M S B) s w e s' w' :
  m s w = (Raised e, s', w') -> bind m k s w = (Raised e, s', w').
Proof. intros H. unfold bind. by rewrite H. Qed.

Lemma native_call_eq {S X} (c : native X) (s : S) w x e :
  react X c (engine w) = (x, e) ->
  native_call c s w = (Returned x, s, World e (trace w ++ [called c])).
Proof. intros H. unfold native_call. by rewrite H. Qed.

(** [throwSQLiteError] never returns: it raises the classified error,
    after asking the engine for its diagnostics. *)
Lemma throwSQLiteError_eq {S} db message sql (s : S) w :
  throwSQLiteError db message sql s w =
  let '(code, extended_code, errmsg, offset, e) :=
    diagnostics db (negb (empty sql)) (engine w) in
  (Raised (classified message errmsg code extended_code sql offset), s,
   World e (trace w ++ diagnostic_calls db (negb (empty sql)))).
Proof.
  unfold throwSQLiteError, diagnostics, diagnostic_calls, classified, bind,
    native_call.
  destruct (react Z (sqlite3_errcode db) (engine w)) as [code e1].
  cbn [engine trace].
  destruct (react Z (sqlite3_extended_errcode db) e1) as [ext e2].
  cbn [engine trace].
  destruct (react string (sqlite3_errmsg db) e2) as [errmsg e3].
  cbn [engine trace].
  destruct (empty sql); cbn [negb ret engine trace].
  - change (-1 <? -1) with false. change (0 <=? -1) with false.
    cbn iota. rewrite <- !app_assoc.
    repeat case_match; reflexivity.
  - destruct (react Z (sqlite3_error_offset db) e3) as [offset e4].
    cbn [engine trace].
    replace (-1 <? offset) with (0 <=? offset)
      by (destruct (Z.leb_spec 0 offset), (Z.ltb_spec (-1) offset); lia).
    rewrite <- !app_assoc.
    repeat case_match; reflexivity.
Qed.

(** ** The error taxonomy *)

Lemma Error_what_message_format (context engine_message : string)
    (code extended_code : Z) :
  Error_what context engine_message code extended_code =
  message_format context engine_message code extended_code.
Proof.
  unfold Error_what, message_format, empty.
  destruct (decide (context = "")) as [->|Hne].
  - rewrite bool_decide_eq_true_2 by done.
    by rewrite !append_assoc.
  - rewrite bool_decide_eq_false_2 by done.
    by rewrite !append_assoc.
Qed.

(** C9: the what-message of a base [Error] is
    [<context>, SQLite error (<code>,<extended_code>): <engine message>]
    when the context is not empty, and
    [SQLite error (<code>,<extended_code>): <engine message>], with no
    context segment and no leading comma, when it is empty. *)
Theorem Error_what_format (context engine_message : string)
    (code extended_code : Z) :
  what (Error context engine_message code extended_code) =
  if decide (context = "") then
    "SQLite error (" +:+ std_to_string code +:+ "," +:+
    std_to_string extended_code +:+ "): " +:+ engine_message
  else
    context +:+ ", SQLite error (" +:+ std_to_string code +:+ "," +:+
    std_to_string extended_code +:+ "): " +:+ engine_message.
Proof.
  unfold what. rewrite Error_what_message_format.
  unfold message_format. by case_decide.
Qed.

(** The derived classes format their what-message as the base class does. *)
Lemma what_Error_derived m s c x sql offset :
  what (SyntaxError m s c x sql offset) = message_format m s c x /\
  what (BusyError m s c x) = message_format m s c x /\
  what (MisuseError m s c x) = message_format m s c x.
Proof. unfold what. by rewrite Error_what_message_format. Qed.

Example what_with_context :
  what (Error "failed to open database" "unable to open database file" 14 14)
  = "failed to open database, SQLite error (14,14): unable to open database file".
Proof. reflexivity. Qed.

Example what_without_context :
  what (Error "" "out of memory" 7 (-7)) = "SQLite error (7,-7): out of memory".
Proof. reflexivity. Qed.

(** ** Error classification *)

Lemma SQLite_exec_eq sql this w :
  db this <> nullptr ->
  SQLite_exec sql this w =
  let '(result, e) := react _ (sqlite3_exec (db this) sql) (engine w) in
  let w' := World e (trace w ++ [called (sqlite3_exec (db this) sql)]) in
  if result =? SQLITE_OK then (Returned tt, this, w')
  else throwSQLiteError (db this) "failed to execute SQL query" sql this w'.
Proof.
  intros Hdb. apply Z.eqb_neq in Hdb.
  unfold SQLite_exec, SQLite_ensure, bind, get, native_call, ret, throw.
  rewrite Hdb.
  destruct (react _ (sqlite3_exec (db this) sql) (engine w)) as [result e].
  by destruct (result =? SQLITE_OK).
Qed.

Lemma Statement_ctor_failed (db : ptr) sql (persistent : bool) w rc written e :
  react _ (sqlite3_prepare_v3 db sql (-1)
             (if persistent then SQLITE_PREPARE_PERSISTENT else 0)) (engine w)
    = (rc, written, e) ->
  rc <> SQLITE_OK ->
  Statement_ctor db sql persistent Statement_default w =
  bind (throwSQLiteError db "failed to prepare statement" sql)
       (fun _ => Statement_initializeColumnIndices)
       (set_stmt written Statement_default)
       (World e (trace w ++ [called (sqlite3_prepare_v3 db sql (-1)
          (if persistent then SQLITE_PREPARE_PERSISTENT else 0))])).
Proof.
  intros Hr Hrc. apply Z.eqb_neq in Hrc.
  unfold Statement_ctor, modify.
  unfold bind at 1 2 3 4, native_call, get, put.
  rewrite Hr, Hrc. reflexivity.
Qed.


Lemma throwSQLiteError_raises (db : ptr) (message sql : string) (w : world) :
  exists x w',
    forall S (s : S), throwSQLiteError db message sql s w = (Raised x, s, w').
Proof.
  destruct (diagnostics db (negb (empty sql)) (engine w))
    as [[[[code extended_code] errmsg] offset] e] eqn:Hd.
  eexists _, _. intros S s. rewrite throwSQLiteError_eq, Hd. reflexivity.
Qed.

(** C1, as the code has it: a failing engine call that was given SQL text
    that is not empty is classified by asking the engine for its error
    offset (after the code, the extended code and the message): a
    non-negative offset raises [SyntaxError] whatever the primary code is;
    otherwise the primary code decides, [SQLITE_BUSY] raising [BusyError],
    [SQLITE_MISUSE] raising [MisuseError] and any other code the base
    [Error]; [SQLITE_LOCKED] is such another code.  When the SQL text is
    empty the offset is not asked for, and the primary code decides alone.
    The two operations that take SQL text, [exec] and the preparation of a
    statement, end as this classification does when their engine call
    fails. *)
Theorem error_classification (h : ptr) (message sql : string) (w : world) :
  (sql <> "" ->
   forall S (s : S),
     let '(code, e1) := react _ (sqlite3_errcode h) (engine w) in
     let '(extended_code, e2) := react _ (sqlite3_extended_errcode h) e1 in
     let '(errmsg, e3) := react _ (sqlite3_errmsg h) e2 in
     let '(offset, e4) := react _ (sqlite3_error_offset h) e3 in
     throwSQLiteError h message sql s w =
     (Raised
        (if 0 <=? offset then
           SyntaxError message errmsg code extended_code sql offset
         else if code =? SQLITE_BUSY then
           BusyError message errmsg code extended_code
         else if code =? SQLITE_MISUSE then
           MisuseError message errmsg code extended_code
         else Error message errmsg code extended_code),
      s,
      World e4
        (trace w ++
         [called (sqlite3_errcode h); called (sqlite3_extended_errcode h);
          called (sqlite3_errmsg h); called (sqlite3_error_offset h)]))
     /\ (code = SQLITE_LOCKED -> offset < 0 ->
         outcome_of (throwSQLiteError h message sql s w) =
         Raised (Error message errmsg SQLITE_LOCKED extended_code)))
  /\ (sql = "" ->
      forall S (s : S),
        let '(code, e1) := react _ (sqlite3_errcode h) (engine w) in
        let '(extended_code, e2) := react _ (sqlite3_extended_errcode h) e1 in
        let '(errmsg, e3) := react _ (sqlite3_errmsg h) e2 in
        throwSQLiteError h message sql s w =
        (Raised
           (if code =? SQLITE_BUSY then
              BusyError message errmsg code extended_code
            else if code =? SQLITE_MISUSE then
              MisuseError message errmsg code extended_code
            else Error message errmsg code extended_code),
         s,
         World e3
           (trace w ++
            [called (sqlite3_errcode h); called (sqlite3_extended_errcode h);
             called (sqlite3_errmsg h)])))
  /\ (forall this result e,
        db this = h -> h <> nullptr ->
        react _ (sqlite3_exec h sql) (engine w) = (result, e) ->
        result <> SQLITE_OK ->
        SQLite_exec sql this w =
        throwSQLiteError h "failed to execute SQL query" sql this
          (World e (trace w ++ [called (sqlite3_exec h sql)])))
  /\ (forall (persistent : bool) rc written e,
        let prepare :=
          sqlite3_prepare_v3 h sql (-1)
            (if persistent then SQLITE_PREPARE_PERSISTENT else 0) in
        react _ prepare (engine w) = (rc, written, e) ->
        rc <> SQLITE_OK ->
        forall x w',
          throwSQLiteError h "failed to prepare statement" sql tt
            (World e (trace w ++ [called prepare])) = (Raised x, tt, w') ->
          Statement_ctor h sql persistent Statement_default w =
          (Raised x, set_stmt written Statement_default, w')).
Proof.
  split; [|split; [|split]].
  - intros Hsql S s.
    pose proof (throwSQLiteError_eq h message sql s w) as H.
    rewrite (empty_false _ Hsql) in H.
    unfold diagnostics, diagnostic_calls, classified in H. cbn [negb app] in H.
    destruct (react _ (sqlite3_errcode h) (engine w)) as [code e1].
    destruct (react _ (sqlite3_extended_errcode h) e1) as [ext e2].
    destruct (react _ (sqlite3_errmsg h) e2) as [errmsg e3].
    destruct (react _ (sqlite3_error_offset h) e3) as [offset e4].
    split; [exact H|]. intros -> Hoffset. rewrite H.
    destruct (Z.leb_spec 0 offset) as [?|_]; [lia|]. reflexivity.
  - intros -> S s.
    pose proof (throwSQLiteError_eq h message "" s w) as H.
    rewrite (proj2 (empty_spec "") eq_refl) in H.
    unfold diagnostics, diagnostic_calls, classified in H.
    cbn [negb app] in H.
    destruct (react _ (sqlite3_errcode h) (engine w)) as [code e1].
    destruct (react _ (sqlite3_extended_errcode h) e1) as [ext e2].
    destruct (react _ (sqlite3_errmsg h) e2) as [errmsg e3].
    exact H.
  - intros this result e <- Hdb Hr Hrc.
    rewrite (SQLite_exec_eq _ _ _ Hdb), Hr.
    apply Z.eqb_neq in Hrc. by rewrite Hrc.
  - intros persistent rc written e prepare Hr Hrc x w' Hthrow.
    rewrite (Statement_ctor_failed _ _ _ _ _ _ _ Hr Hrc).
    apply bind_Raised.
    destruct (throwSQLiteError_raises h "failed to prepare statement" sql
                (World e (trace w ++ [called prepare]))) as (x0 & w0 & H0).
    rewrite (H0 unit tt) in Hthrow. inversion Hthrow; subst.
    apply H0.
Qed.

Example locked_is_base_Error (db : ptr) (message errmsg sql : string) :
  classified message errmsg SQLITE_LOCKED 262 sql (-1)
  = Error message errmsg SQLITE_LOCKED 262.
Proof. reflexivity. Qed.

(** Without SQL text the offset is not asked for, and the primary code
    decides alone. *)
Lemma throwSQLiteError_no_sql {S} (h : ptr) (message : string) (s : S) w :
  throwSQLiteError h message "" s w =
  let '(code, extended_code, errmsg, _, e) := diagnostics h false (engine w) in
  (Raised (classified message errmsg code extended_code "" (-1)), s,
   World e (trace w ++ diagnostic_calls h false)).
Proof.
  rewrite throwSQLiteError_eq. change (negb (empty "")) with false.
  unfold diagnostics.
  destruct (react _ (sqlite3_errcode h) (engine w)) as [code e1].
  destruct (react _ (sqlite3_extended_errcode h) e1) as [ext e2].
  by destruct (react _ (sqlite3_errmsg h) e2) as [errmsg e3].
Qed.

(** ** The connection *)

Lemma SQLite_close_null this w :
  db this = nullptr -> SQLite_close this w = (Returned tt, this, w).
Proof.
  intros H. unfold SQLite_close, bind, get, is_set. by rewrite H.
Qed.

Lemma SQLite_close_eq this w :
  db this <> nullptr ->
  SQLite_close this w =
  let '(rc, e) := react _ (sqlite3_close (db this)) (engine w) in
  let w' := World e (trace w ++ [called (sqlite3_close (db this))]) in
  if rc =? SQLITE_OK then (Returned tt, mkSQLite nullptr, w')
  else throwSQLiteError (db this) "failed to close connection" "" this w'.
Proof.
  intros Hdb. apply Z.eqb_neq in Hdb.
  unfold SQLite_close, bind, get, put, native_call, ret, is_set.
  rewrite Hdb. cbn [negb].
  destruct (react _ (sqlite3_close (db this)) (engine w)) as [rc e].
  destruct (rc =? SQLITE_OK); cbn [negb]; [reflexivity|].
  destruct (throwSQLiteError_raises (db this) "failed to close connection" ""
              (World e (trace w ++ [called (sqlite3_close (db this))])))
    as (x & w' & H).
  by rewrite (H SQLite this).
Qed.

(** C4: [close] on a connection whose handle is null does nothing; when the
    engine's close call fails, [close] raises the classified error and the
    handle is unchanged, so the close can be tried again; the handle
    becomes null only when the engine's close call succeeds.  Closing twice
    is closing once. *)
Theorem close_idempotent_retryable (this : SQLite) (w : world) :
  (db this = nullptr -> SQLite_close this w = (Returned tt, this, w))
  /\ (db this <> nullptr ->
      forall rc e,
        react _ (sqlite3_close (db this)) (engine w) = (rc, e) ->
        let w1 := World e (trace w ++ [called (sqlite3_close (db this))]) in
        (rc = SQLITE_OK ->
         SQLite_close this w = (Returned tt, mkSQLite nullptr, w1))
        /\ (rc <> SQLITE_OK ->
            let '(code, extended_code, errmsg, _, e') :=
              diagnostics (db this) false e in
            SQLite_close this w =
            (Raised (classified "failed to close connection" errmsg code
                       extended_code "" (-1)),
             this,
             World e' (trace w1 ++ diagnostic_calls (db this) false))))
  /\ bind SQLite_close (fun _ => SQLite_close) this w = SQLite_close this w.
Proof.
  split; [apply SQLite_close_null|split].
  - intros Hdb rc e Hr w1. rewrite (SQLite_close_eq _ _ Hdb), Hr. split.
    + by intros ->.
    + intros Hrc. apply Z.eqb_neq in Hrc. rewrite Hrc.
      pose proof (throwSQLiteError_no_sql (db this)
                    "failed to close connection" this w1) as H.
      cbn [engine w1] in H. subst w1. cbn zeta.
      by destruct (diagnostics (db this) false e) as [[[[? ?] ?] ?] ?].
  - destruct (decide (db this = nullptr)) as [Hdb|Hdb].
    + by rewrite (bind_Returned _ _ _ _ _ _ _ (SQLite_close_null _ _ Hdb)).
    + pose proof (SQLite_close_eq this w Hdb) as H.
      destruct (react _ (sqlite3_close (db this)) (engine w)) as [rc e].
      cbn zeta in H. destruct (rc =? SQLITE_OK).
      * rewrite (bind_Returned _ _ _ _ _ _ _ H), H.
        by apply SQLite_close_null.
      * destruct (throwSQLiteError_raises (db this)
                    "failed to close connection" ""
                    (World e (trace w ++ [called (sqlite3_close (db this))])))
          as (x & w' & Hx).
        rewrite (Hx SQLite this) in H.
        by rewrite (bind_Raised _ _ _ _ _ _ _ H), H.
Qed.

(** ** The statement *)

Lemma Statement_ensure_set this w :
  stmt this <> nullptr -> Statement_ensure this w = (Returned tt, this, w).
Proof.
  intros H. apply Z.eqb_neq in H.
  unfold Statement_ensure, bind, get. by rewrite H.
Qed.

Lemma Statement_ensure_null this w :
  stmt this = nullptr ->
  Statement_ensure this w =
  (Raised (OtherError "SQLite statement not initialized"), this, w).
Proof.
  intros H. unfold Statement_ensure, bind, get. by rewrite H.
Qed.

(** A method that starts with [ensure()], on a statement with a handle. *)
Lemma ensure_then {A} (k : M Statement A) this w :
  stmt this <> nullptr ->
  bind Statement_ensure (fun _ => k) this w = k this w.
Proof.
  intros H. by rewrite (bind_Returned _ _ _ _ _ _ _ (Statement_ensure_set _ _ H)).
Qed.

Lemma ensure_then_null {A} (k : M Statement A) this w :
  stmt this = nullptr ->
  bind Statement_ensure (fun _ => k) this w =
  (Raised (OtherError "SQLite statement not initialized"), this, w).
Proof.
  intros H. by rewrite (bind_Raised _ _ _ _ _ _ _ (Statement_ensure_null _ _ H)).
Qed.

(** C5: on a prepared statement, [step] returns true when the engine
    reports a row, false when the engine reports that execution is done,
    and on any other result of the engine it raises the classified error and
    does not return. *)
Theorem step_outcomes (this : Statement) (w : world) (result : Z) (e : E) :
  stmt this <> nullptr ->
  react _ (sqlite3_step (stmt this)) (engine w) = (result, e) ->
  let w1 := World e (trace w ++ [called (sqlite3_step (stmt this))]) in
  (result = SQLITE_ROW -> Statement_step this w = (Returned true, this, w1))
  /\ (result = SQLITE_DONE ->
      Statement_step this w = (Returned false, this, w1))
  /\ (result <> SQLITE_ROW -> result <> SQLITE_DONE ->
      let '(h, e2) := react _ (sqlite3_db_handle (stmt this)) e in
      let '(code, extended_code, errmsg, _, e') := diagnostics h false e2 in
      Statement_step this w =
      (Raised (classified "failed to step statement" errmsg code
                 extended_code "" (-1)),
       this,
       World e' (trace w1 ++ called (sqlite3_db_handle (stmt this))
                   :: diagnostic_calls h false))).
Proof.
  intros Hstmt Hr w1.
  assert (Statement_step this w =
          if result =? SQLITE_ROW then (Returned true, this, w1)
          else if result =? SQLITE_DONE then (Returned false, this, w1)
          else
            let '(h, e2) := react _ (sqlite3_db_handle (stmt this)) e in
            bind (throwSQLiteError h "failed to step statement" "")
                 (fun _ => ret false) this
                 (World e2 (trace w1 ++
                    [called (sqlite3_db_handle (stmt this))]))) as Hstep.
  { unfold Statement_step. rewrite ensure_then by done.
    unfold bind at 1 2, get, native_call. rewrite Hr. fold w1.
    destruct (result =? SQLITE_ROW); [reflexivity|].
    destruct (result =? SQLITE_DONE); [reflexivity|].
    unfold bind at 1, native_call. cbn [engine trace w1].
    by destruct (react _ (sqlite3_db_handle (stmt this)) e) as [h e2]. }
  rewrite Hstep. split; [|split].
  - by intros ->.
  - by intros ->.
  - intros Hrow Hdone.
    apply Z.eqb_neq in Hrow, Hdone. rewrite Hrow, Hdone.
    destruct (react _ (sqlite3_db_handle (stmt this)) e) as [h e2].
    pose proof (throwSQLiteError_no_sql h "failed to step statement" this
                  (World e2 (trace w1 ++
                     [called (sqlite3_db_handle (stmt this))]))) as H.
    cbn [engine trace] in H.
    destruct (diagnostics h false e2) as [[[[code ext] errmsg] o] e'].
    rewrite (bind_Raised _ _ _ _ _ _ _ H).
    by rewrite <- app_assoc.
Qed.

(** ** Opening a connection *)

Lemma SQLite_open_eq dbName flags this w :
  SQLite_open dbName flags this w =
  let open := sqlite3_open_v2 dbName (toSQLiteOpenFlags flags) in
  let '(rc, written, e) := react _ open (engine w) in
  let w' := World e (trace w ++ [called open]) in
  if rc =? SQLITE_OK then (Returned tt, mkSQLite written, w')
  else throwSQLiteError written "failed to open database" ""
         (mkSQLite written) w'.
Proof.
  unfold SQLite_open, bind at 1 2, native_call, put.
  destruct (react _ (sqlite3_open_v2 dbName (toSQLiteOpenFlags flags))
              (engine w)) as [[rc written] e].
  cbn zeta. destruct (rc =? SQLITE_OK); reflexivity.
Qed.

Lemma SQLite_dtor_set this w :
  db this <> nullptr ->
  exists rest,
    trace (world_of (SQLite_dtor this w)) =
    trace w ++ called (sqlite3_close (db this)) :: rest.
Proof.
  intros Hdb. unfold SQLite_dtor, noexcept.
  rewrite (SQLite_close_eq _ _ Hdb).
  destruct (react _ (sqlite3_close (db this)) (engine w)) as [rc e].
  cbn zeta. destruct (rc =? SQLITE_OK).
  - exists []. reflexivity.
  - rewrite throwSQLiteError_no_sql. cbn [engine trace].
    destruct (diagnostics (db this) false e) as [[[[code ext] errmsg] o] e'].
    exists (diagnostic_calls (db this) false).
    unfold world_of. cbn [snd trace]. by rewrite <- app_assoc.
Qed.

(** C10: when [open] fails it raises the classified error and the handle
    is not reset: it holds the pointer the engine's open call wrote, so
    that the connection reports itself open exactly when that pointer is
    not null, and its destructor then calls the engine's close on it. *)
Theorem failed_open_keeps_handle (this : SQLite) (dbName : string) (flags : Z)
    (w : world) (rc : Z) (written : ptr) (e : E) :
  react _ (sqlite3_open_v2 dbName (toSQLiteOpenFlags flags)) (engine w)
    = (rc, written, e) ->
  rc <> SQLITE_OK ->
  let r := SQLite_open dbName flags this w in
  (let '(code, extended_code, errmsg, _, _) := diagnostics written false e in
   outcome_of r =
   Raised (classified "failed to open database" errmsg code extended_code
             "" (-1)))
  /\ object_of r = mkSQLite written
  /\ SQLite_bool (object_of r) (world_of r)
     = (Returned (is_set written), object_of r, world_of r)
  /\ (written <> nullptr ->
      exists rest,
        trace (world_of (SQLite_dtor (object_of r) (world_of r))) =
        trace (world_of r) ++ called (sqlite3_close written) :: rest).
Proof.
  intros Hr Hrc r.
  assert (r = let '(code, extended_code, errmsg, _, e') :=
                diagnostics written false e in
              (Raised (classified "failed to open database" errmsg code
                         extended_code "" (-1)),
               mkSQLite written,
               World e' ((trace w ++ [called (sqlite3_open_v2 dbName
                                        (toSQLiteOpenFlags flags))])
                         ++ diagnostic_calls written false))) as ->.
  { subst r. rewrite SQLite_open_eq. cbn zeta. rewrite Hr.
    apply Z.eqb_neq in Hrc. rewrite Hrc.
    by rewrite throwSQLiteError_no_sql. }
  destruct (diagnostics written false e) as [[[[code ext] errmsg] o] e'].
  unfold outcome_of, object_of, world_of. cbn [fst snd].
  repeat split.
  intros Hw. by apply (SQLite_dtor_set (mkSQLite written)).
Qed.

(** ** Typed column reads *)

Lemma std_string_within {S} (p : string) (n : Z) (s : S) w :
  0 <= n <= Z.of_nat (String.length p) ->
  std_string p n s w = (Returned (string_of_buffer p n), s, w).
Proof.
  intros Hn. unfold std_string.
  destruct (Z.ltb_spec n 0) as [?|_]; [lia|].
  destruct (Z.leb_spec n (Z.of_nat (String.length p))) as [_|?]; [done|lia].
Qed.

Lemma Statement_getString_eq index this w :
  stmt this <> nullptr ->
  Statement_getString index this w =
  let '(text, e1) :=
    react _ (sqlite3_column_text (stmt this) index) (engine w) in
  let '(size, e2) := react _ (sqlite3_column_bytes (stmt this) index) e1 in
  let w' :=
    World e2 (trace w ++ [called (sqlite3_column_text (stmt this) index);
                          called (sqlite3_column_bytes (stmt this) index)]) in
  match text with
  | Some text => std_string text size this w'
  | None => (Returned "", this, w')
  end.
Proof.
  intros Hstmt. unfold Statement_getString. rewrite ensure_then by done.
  unfold bind at 1, get. unfold bind at 1, native_call at 1.
  destruct (react _ (sqlite3_column_text (stmt this) index) (engine w))
    as [text e1].
  unfold bind at 1, native_call at 1. cbn [engine trace].
  destruct (react _ (sqlite3_column_bytes (stmt this) index) e1)
    as [size e2].
  cbn zeta. rewrite <- app_assoc. cbn [app].
  by destruct text.
Qed.

(** C8: on a prepared statement, and with an engine whose byte counts are
    what its interface promises, the typed reads [getInt], [getInt64],
    [getDouble], [getString] and [getBlob] return for every column index
    and never raise, and leave the statement as it was; where the engine
    has no value (a zero, a null text pointer, a null blob pointer) the
    read gives the zero or empty value of its type. *)
Theorem typed_reads_never_raise (T : read_type) (this : Statement)
    (index : Z) (w : world) :
  stmt this <> nullptr ->
  byte_count_within T (stmt this) index (engine w) ->
  exists v w',
    Statement_read T index this w = (Returned v, this, w')
    /\ (absent T (stmt this) index (engine w) -> v = zero_value T).
Proof.
  intros Hstmt Hbytes.
  destruct T; unfold Statement_read, absent, zero_value;
    unfold byte_count_within in Hbytes.
  - unfold Statement_getInt, bind at 1. rewrite ensure_then by done.
    unfold bind, get, native_call.
    destruct (react _ (sqlite3_column_int (stmt this) index) (engine w))
      as [x e].
    eexists _, _. split; [reflexivity|]. cbn. by intros ->.
  - unfold Statement_getInt64, bind at 1. rewrite ensure_then by done.
    unfold bind, get, native_call.
    destruct (react _ (sqlite3_column_int64 (stmt this) index) (engine w))
      as [x e].
    eexists _, _. split; [reflexivity|]. cbn. by intros ->.
  - unfold Statement_getDouble, bind at 1. rewrite ensure_then by done.
    unfold bind, get, native_call.
    destruct (react _ (sqlite3_column_double (stmt this) index) (engine w))
      as [x e].
    eexists _, _. split; [reflexivity|]. cbn. by intros ->.
  - unfold bind at 1. rewrite Statement_getString_eq by done.
    destruct (react _ (sqlite3_column_text (stmt this) index) (engine w))
      as [text e1].
    destruct (react _ (sqlite3_column_bytes (stmt this) index) e1)
      as [size e2].
    cbn zeta. destruct text as [text|].
    + cbn [fst] in Hbytes. rewrite std_string_within by done.
      eexists _, _. split; [reflexivity|]. cbn. discriminate.
    + eexists _, _. split; [reflexivity|]. done.
  - unfold Statement_getBlob, bind at 1. rewrite ensure_then by done.
    unfold bind, get, native_call, ret.
    destruct (react _ (sqlite3_column_blob (stmt this) index) (engine w))
      as [data e1].
    cbn [engine trace].
    destruct (react _ (sqlite3_column_bytes (stmt this) index) e1)
      as [size e2].
    eexists _, _. split; [reflexivity|]. cbn [fst] in *.
    intros ->. by rewrite Hbytes.
Qed.

(** ** The column map *)

Lemma index_columns_lookup (names : list (option string)) (i : Z)
    (m : gmap string Z) (name : string) (v : Z) :
  index_columns names i m !! name = Some v <->
  (exists k, v = i + Z.of_nat k /\ last_occurrence names name k)
  \/ (m !! name = Some v /\ forall k, names !! k <> Some (Some name)).
Proof.
  revert i m. induction names as [|a names IH]; intros i m; cbn [index_columns].
  - split.
    + intros H. right. split; [done|]. intros k. by rewrite lookup_nil.
    + intros [(k & _ & Hk & _)|[H _]]; [by rewrite lookup_nil in Hk|done].
  - rewrite IH. split.
    + intros [(k & -> & Hk & Hlast)|[Hm Hnone]].
      * left. exists (S k). split; [lia|]. split; [done|].
        intros [|j] Hj; [lia|]. apply Hlast. lia.
      * destruct a as [a|].
        -- destruct (decide (a = name)) as [->|Hne].
           ++ rewrite lookup_insert_eq in Hm. injection Hm as <-.
              left. exists 0%nat. split; [lia|]. split; [done|].
              intros [|j] Hj; [lia|]. apply Hnone.
           ++ rewrite lookup_insert_ne in Hm by done.
              right. split; [done|]. intros [|k]; [|apply Hnone].
              cbn. congruence.
        -- right. split; [done|]. intros [|k]; [done|apply Hnone].
    + intros [(k & -> & Hk & Hlast)|[Hm Hnone]].
      * destruct k as [|k].
        -- cbn in Hk. injection Hk as ->. right. split.
           ++ rewrite lookup_insert_eq. f_equal. lia.
           ++ intros k. apply (Hlast (S k)). lia.
        -- left. exists k. split; [lia|]. split; [done|].
           intros j Hj. apply (Hlast (S j)). lia.
      * right. split; [|intros k; apply (Hnone (S k))].
        destruct a as [a|]; [|done].
        rewrite lookup_insert_ne; [done|].
        intros ->. by apply (Hnone 0%nat).
Qed.

Lemma set_columnIndices_id this :
  set_columnIndices (columnIndices this) this = this.
Proof. by destruct this. Qed.

Lemma initializeColumnIndices_from_eq n i this w :
  initializeColumnIndices_from n i this w =
  let '(names, e) := column_names (stmt this) n i (engine w) in
  (Returned tt,
   set_columnIndices (index_columns names i (columnIndices this)) this,
   World e (trace w ++ column_name_calls (stmt this) n i)).
Proof.
  revert i this w. induction n as [|n IH]; intros i this w.
  - cbn. rewrite set_columnIndices_id, app_nil_r. by destruct w.
  - cbn [initializeColumnIndices_from column_names column_name_calls].
    unfold bind at 1 2, get, native_call.
    destruct (react _ (sqlite3_column_name (stmt this) i) (engine w))
      as [name e1].
    unfold bind at 1.
    destruct name as [name|].
    + unfold modify, bind, get, put. rewrite IH. cbn [stmt set_columnIndices
        columnIndices engine trace].
      destruct (column_names (stmt this) n (i + 1) e1) as [names e2].
      cbn [index_columns]. by rewrite <- app_assoc.
    + unfold ret. rewrite IH. cbn [engine trace].
      destruct (column_names (stmt this) n (i + 1) e1) as [names e2].
      cbn [index_columns]. by rewrite <- app_assoc.
Qed.

(** A successful preparation: one pass over the engine's column names. *)
Lemma Statement_ctor_eq (h : ptr) sql (persistent : bool) w written e :
  let prepare :=
    sqlite3_prepare_v3 h sql (-1)
      (if persistent then SQLITE_PREPARE_PERSISTENT else 0) in
  react _ prepare (engine w) = (SQLITE_OK, written, e) ->
  Statement_ctor h sql persistent Statement_default w =
  let '(columnCount, e1) := react _ (sqlite3_column_count written) e in
  let n := Z.to_nat columnCount in
  let '(names, e2) := column_names written n 0 e1 in
  (Returned tt, mkStatement written (index_columns names 0 ∅),
   World e2 (trace w ++ [called prepare; called (sqlite3_column_count written)]
               ++ column_name_calls written n 0)).
Proof.
  intros prepare Hr.
  unfold Statement_ctor, modify.
  unfold bind at 1 2 3 4, native_call, get, put. fold prepare. rewrite Hr.
  cbn [Z.eqb SQLITE_OK negb ret].
  unfold Statement_initializeColumnIndices, bind, get, native_call.
  cbn [set_stmt stmt engine trace].
  destruct (react _ (sqlite3_column_count written) e) as [columnCount e1].
  rewrite initializeColumnIndices_from_eq.
  cbn [stmt columnIndices engine trace Statement_default set_columnIndices
       set_stmt].
  destruct (column_names written (Z.to_nat columnCount) 0 e1) as [names e2].
  cbn zeta. by rewrite <- !app_assoc.
Qed.

(** *** What a method leaves untouched *)

Lemma keeps_ret {S A T} (f : S -> T) (a : A) : keeps f (ret a).
Proof. by intros s w. Qed.

Lemma keeps_throw {S A T} (f : S -> T) (x : exn) : keeps f (@throw S A x).
Proof. by intros s w. Qed.

Lemma keeps_get {S T} (f : S -> T) : keeps f get.
Proof. by intros s w. Qed.

Lemma keeps_native_call {S X T} (f : S -> T) (c : native X) :
  keeps f (native_call c).
Proof.
  intros s w. unfold native_call. by destruct (react X c (engine w)).
Qed.

Lemma keeps_modify {S T} (f : S -> T) (g : S -> S) :
  (forall s, f (g s) = f s) -> keeps f (modify g).
Proof. intros H s w. apply H. Qed.

Lemma keeps_bind {S A B T} (f : S -> T) (m : M S A) (k : A -> M S B) :
  keeps f m -> (forall a, keeps f (k a)) -> keeps f (bind m k).
Proof.
  intros Hm Hk s w. specialize (Hm s w). unfold bind.
  destruct (m s w) as [[[a|x| |] s'] w']; cbn in Hm; [|done..].
  by rewrite Hk.
Qed.

Lemma keeps_noexcept {S A T} (f : S -> T) (m : M S A) :
  keeps f m -> keeps f (noexcept m).
Proof.
  intros Hm s w. specialize (Hm s w). unfold noexcept.
  by destruct (m s w) as [[[a|x| |] s'] w'].
Qed.

Lemma keeps_throwSQLiteError {S T} (f : S -> T) h message sql :
  keeps f (throwSQLiteError h message sql).
Proof.
  intros s w.
  destruct (throwSQLiteError_raises h message sql w) as (x & w' & H).
  by rewrite H.
Qed.

Lemma keeps_native_call_on_destroyed {S X T} (f : S -> T) (c : native X) :
  keeps f (native_call_on_destroyed c).
Proof. by intros s w. Qed.

Lemma keeps_std_string {S T} (f : S -> T) (p : string) (n : Z) :
  keeps f (std_string p n).
Proof. intros s w. unfold std_string. by repeat case_match. Qed.

Ltac keeps_step :=
  match goal with
  | |- keeps _ (bind _ _) => apply keeps_bind; [|intros ?]
  | |- keeps _ (native_call_on_destroyed _) =>
      apply keeps_native_call_on_destroyed
  | |- keeps _ (std_string _ _) => apply keeps_std_string
  | |- keeps _ (ret _) => apply keeps_ret
  | |- keeps _ (throw _) => apply keeps_throw
  | |- keeps _ get => apply keeps_get
  | |- keeps _ (native_call _) => apply keeps_native_call
  | |- keeps _ (throwSQLiteError _ _ _) => apply keeps_throwSQLiteError
  | |- keeps _ (modify _) => apply keeps_modify; reflexivity
  | |- keeps _ (noexcept _) => apply keeps_noexcept
  | |- keeps _ (if ?c then _ else _) => destruct c
  | |- keeps _ (match ?x with _ => _ end) => destruct x
  end.

Lemma keeps_Statement_bind {T} (f : Statement -> T) index value :
  keeps f (Statement_bind index value).
Proof.
  unfold Statement_bind, Statement_ensure, bind_check.
  repeat keeps_step.
Qed.

Lemma keeps_Statement_bindHelper {T} (f : Statement -> T) index args :
  keeps f (Statement_bindHelper index args).
Proof.
  revert index. induction args as [|value args IH]; intros index; cbn.
  - apply keeps_ret.
  - apply keeps_bind; [apply keeps_Statement_bind|intros _; apply IH].
Qed.

(** No operation on a statement touches its column map. *)
Lemma Statement_run_keeps_columnIndices op :
  keeps columnIndices (Statement_run op).
Proof.
  destruct op; cbn [Statement_run];
    try (unfold Statement_bindAll; apply keeps_bind;
         [apply keeps_Statement_bindHelper|intros; apply keeps_ret]);
    try (apply keeps_bind; [|intros ?; apply keeps_bind;
         [apply keeps_Statement_bind|intros; apply keeps_ret]]);
    try match goal with
        | |- keeps _ (Parameter_run _ ?m) =>
            destruct m; cbn [Parameter_run];
            [apply keeps_bind;
             [apply keeps_Statement_bind|intros; apply keeps_ret]|]
        | |- keeps _ (Column_run _ ?m) => destruct m; cbn [Column_run]
        end;
    unfold Statement_finalize, Statement_getParamIndex, Statement_getParamName,
      param_at, column_at, Statement_columnCount, Statement_count,
      Statement_columnCount, Statement_getColumnIndex, Statement_getColumnType,
      Statement_getColumnDeclType, Statement_getColumnName,
      Statement_getColumnOriginName, Statement_getColumnTableName,
      Statement_getColumnDatabaseName, metadata_disabled, Statement_read,
      Statement_getInt, Statement_getInt64, Statement_getDouble,
      Statement_getString, Statement_getBlob,
      Statement_exec, Statement_execute, Statement_step, Statement_reuse,
      Statement_reset, Statement_clearBindings, Statement_bool,
      Statement_getParamIndex, Statement_ensure;
    repeat keeps_step.
Qed.

Lemma Statement_finalize_keeps_columnIndices :
  keeps columnIndices Statement_finalize.
Proof. unfold Statement_finalize. repeat keeps_step. Qed.

(** C7: the column map of a statement is computed once, when the
    statement is prepared, in one pass over the engine's column names; no
    operation on the statement, nor its destructor, modifies it afterwards;
    a name resolves to a column exactly when that column is the last one of
    that name; and resolving a name that is not in the map raises
    [OtherError]. *)
Theorem columnIndices_computed_once :
  (forall (h : ptr) (sql : string) (persistent : bool) (w : world)
          (written : ptr) (e : E),
     let prepare :=
       sqlite3_prepare_v3 h sql (-1)
         (if persistent then SQLITE_PREPARE_PERSISTENT else 0) in
     react _ prepare (engine w) = (SQLITE_OK, written, e) ->
     let '(columnCount, e1) := react _ (sqlite3_column_count written) e in
     let '(names, e2) := column_names written (Z.to_nat columnCount) 0 e1 in
     exists this,
       Statement_ctor h sql persistent Statement_default w =
       (Returned tt, this,
        World e2
          (trace w ++ [called prepare; called (sqlite3_column_count written)]
             ++ column_name_calls written (Z.to_nat columnCount) 0))
       /\ stmt this = written
       /\ forall name i,
            columnIndices this !! name = Some i <->
            exists k, i = Z.of_nat k /\ last_occurrence names name k)
  /\ (forall op this w,
        columnIndices (object_of (Statement_run op this w))
        = columnIndices this)
  /\ (forall this w,
        columnIndices (object_of (Statement_dtor this w)) = columnIndices this)
  /\ (forall this name w,
        Statement_getColumnIndex name this w =
        match columnIndices this !! name with
        | Some index => (Returned index, this, w)
        | None =>
            (Raised (OtherError ("column not found: " +:+ name)), this, w)
        end).
Proof.
  split; [|split; [|split]].
  - intros h sql persistent w written e prepare Hr.
    pose proof (Statement_ctor_eq h sql persistent w written e Hr) as H.
    destruct (react _ (sqlite3_column_count written) e) as [columnCount e1].
    cbn zeta in H.
    destruct (column_names written (Z.to_nat columnCount) 0 e1) as [names e2].
    eexists. split; [exact H|]. split; [reflexivity|].
    intros name i. cbn [columnIndices].
    rewrite index_columns_lookup. split.
    + intros [(k & -> & Hk)|[Hm _]]; [|by rewrite lookup_empty in Hm].
      exists k. split; [lia|done].
    + intros (k & -> & Hk). left. exists k. split; [lia|done].
  - intros op this w. apply Statement_run_keeps_columnIndices.
  - intros this w.
    exact (keeps_noexcept _ _ Statement_finalize_keeps_columnIndices this w).
  - intros this name w. unfold Statement_getColumnIndex, bind, get.
    by destruct (columnIndices this !! name).
Qed.

(** ** Null handles *)

Lemma SQLite_ensure_null this w :
  db this = nullptr ->
  SQLite_ensure this w =
  (Raised (OtherError "SQLite database connection not initialized"), this, w).
Proof.
  intros H. unfold SQLite_ensure, bind, get. by rewrite H.
Qed.

Lemma bind_ret {S A B} (a : A) (k : A -> M S B) s w :
  bind (ret a) k s w = k a s w.
Proof. reflexivity. Qed.

Lemma Statement_checks_handle_rejects op :
  Statement_checks_handle op = true -> Statement_rejects_null op.
Proof.
  intros Hop this w Hstmt.
  pose proof (Statement_ensure_null this w Hstmt) as He.
  destruct op as [| | |[]|[]|[|]| | | | |[]|[]| |[]|[]|[]|[] []| | | | | | | |? []|? []];
    try discriminate Hop; cbn [Statement_checks_handle] in Hop;
    repeat match goal with T : read_type |- _ => destruct T end;
    try rewrite Hop;
    cbn [Statement_run Column_run Parameter_run param_at column_at];
    unfold Statement_getParamIndex, Statement_getParamName,
      Statement_bind, Statement_bindAll, Statement_columnCount,
      Statement_count, Statement_columnCount, Statement_getColumnType,
      Statement_getColumnDeclType, Statement_getColumnName,
      Statement_getColumnOriginName, Statement_getColumnTableName,
      Statement_getColumnDatabaseName, Statement_read,
      Statement_getInt, Statement_getInt64, Statement_getDouble,
      Statement_getString, Statement_getBlob,
      Statement_exec, Statement_execute, Statement_step, Statement_reuse,
      Statement_reset, Statement_clearBindings;
    cbn [Statement_bindHelper]; try rewrite Hop;
    unfold Statement_bind;
    repeat first [ rewrite bind_ret | apply He | apply bind_Raised ].
Qed.

Lemma SQLite_checks_handle_rejects op :
  SQLite_checks_handle op = true -> SQLite_rejects_null op.
Proof.
  intros Hop this w Hdb.
  pose proof (SQLite_ensure_null this w Hdb) as He.
  destruct op; try discriminate Hop;
    cbn [SQLite_run]; unfold SQLite_execute, SQLite_exec, SQLite_prepare;
    repeat first [ apply He | apply bind_Raised ].
Qed.

(** A method that, run on a statement whose handle is null, makes no
    native call and leaves the handle null. *)
Lemma quiet_ret {A} (a : A) (this : Statement) w :
  stmt this = nullptr ->
  world_of (ret a this w) = w /\ stmt (object_of (ret a this w)) = nullptr.
Proof. done. Qed.

Lemma quiet_throw {A} (x : exn) (this : Statement) w :
  stmt this = nullptr ->
  world_of (@throw _ A x this w) = w
  /\ stmt (object_of (@throw _ A x this w)) = nullptr.
Proof. done. Qed.

Lemma quiet_ensure_then {A} (k : M Statement A) (this : Statement) w :
  stmt this = nullptr ->
  world_of (bind Statement_ensure (fun _ => k) this w) = w
  /\ stmt (object_of (bind Statement_ensure (fun _ => k) this w)) = nullptr.
Proof. intros H. by rewrite ensure_then_null. Qed.

Lemma quiet_bind {A B} (m : M Statement A) (k : A -> M Statement B) this w :
  (world_of (m this w) = w /\ stmt (object_of (m this w)) = nullptr) ->
  (forall a this,
     stmt this = nullptr ->
     world_of (k a this w) = w /\ stmt (object_of (k a this w)) = nullptr) ->
  world_of (bind m k this w) = w
  /\ stmt (object_of (bind m k this w)) = nullptr.
Proof.
  intros [Hw Hs] Hk. unfold bind.
  destruct (m this w) as [[[a|x| |] s'] w']; cbn in Hw, Hs; subst w'; [|done..].
  by apply Hk.
Qed.

Lemma quiet_getColumnIndex name (this : Statement) w :
  stmt this = nullptr ->
  world_of (Statement_getColumnIndex name this w) = w
  /\ stmt (object_of (Statement_getColumnIndex name this w)) = nullptr.
Proof.
  intros H. unfold Statement_getColumnIndex, bind, get.
  by destruct (columnIndices this !! name).
Qed.

Lemma quiet_finalize (this : Statement) w :
  stmt this = nullptr ->
  world_of (Statement_finalize this w) = w
  /\ stmt (object_of (Statement_finalize this w)) = nullptr.
Proof.
  intros H. unfold Statement_finalize, bind, get, is_set.
  by rewrite (proj2 (Z.eqb_eq _ _) H).
Qed.

Lemma quiet_bool (this : Statement) w :
  stmt this = nullptr ->
  world_of (Statement_bool this w) = w
  /\ stmt (object_of (Statement_bool this w)) = nullptr.
Proof. done. Qed.

Lemma quiet_bindHelper index args (this : Statement) w :
  stmt this = nullptr ->
  world_of (Statement_bindHelper index args this w) = w
  /\ stmt (object_of (Statement_bindHelper index args this w)) = nullptr.
Proof.
  intros H. destruct args as [|value args]; cbn [Statement_bindHelper];
    [done|].
  unfold Statement_bind.
  by rewrite (bind_Raised _ _ _ _ _ _ _ (ensure_then_null _ _ _ H)).
Qed.

Ltac quiet_step :=
  match goal with
  | |- world_of (Statement_bindHelper _ _ _ _) = _ /\ _ =>
      by apply quiet_bindHelper
  | |- world_of (Statement_finalize _ _) = _ /\ _ => by apply quiet_finalize
  | |- world_of (Statement_bool _ _) = _ /\ _ => by apply quiet_bool
  | |- world_of (bind Statement_ensure _ _ _) = _ /\ _ =>
      by apply quiet_ensure_then
  | |- world_of (Statement_getColumnIndex _ _ _) = _ /\ _ =>
      by apply quiet_getColumnIndex
  | |- world_of (ret _ _ _) = _ /\ _ => by apply quiet_ret
  | |- world_of (throw _ _ _) = _ /\ _ => by apply quiet_throw
  | |- world_of (bind _ _ _ _) = _ /\ _ =>
      apply quiet_bind; [|intros ? ? ?]
  end.

(** On a statement whose handle is null no operation reaches the engine. *)
Lemma Statement_null_no_native_call op this w :
  stmt this = nullptr -> world_of (Statement_run op this w) = w.
Proof.
  intros Hstmt.
  cut (world_of (Statement_run op this w) = w
       /\ stmt (object_of (Statement_run op this w)) = nullptr);
    [by intros []|].
  destruct op as [| | |[]|[]|[|]|[]| | | |[]|[]| |[]|[]|[]|[] []| | | | | | | |? []|? []];
    repeat match goal with T : read_type |- _ => destruct T end;
    cbn [Statement_run Column_run Parameter_run param_at column_at];
    unfold Statement_getParamIndex, Statement_getParamName,
      Statement_bind, Statement_bindAll, Statement_columnCount,
      Statement_count, Statement_columnCount,
      Statement_getColumnType,
      Statement_getColumnDeclType, Statement_getColumnName,
      Statement_getColumnOriginName, Statement_getColumnTableName,
      Statement_getColumnDatabaseName, metadata_disabled, Statement_read,
      Statement_getInt, Statement_getInt64, Statement_getDouble,
      Statement_getString, Statement_getBlob,
      Statement_exec, Statement_execute, Statement_step, Statement_reuse,
      Statement_reset, Statement_clearBindings;
    unfold Statement_bind;
    try destruct COLUMN_METADATA;
    repeat quiet_step.
Qed.

(** C2, as the code has it: on a null handle, every operation whose body
    starts with the handle check (for a statement: the parameter and bind
    operations, the column count, the reads and the introspection by
    index, step, reset, clearBindings and their compositions, and the
    members of the views; for a connection: prepare, exec and execute)
    raises [OtherError] for the missing handle before any native call and
    leaves the object as it is; and no operation on a statement with a null
    handle reaches a native call. *)
Theorem null_handle_guard :
  (forall op, Statement_checks_handle op = true -> Statement_rejects_null op)
  /\ (forall op, SQLite_checks_handle op = true -> SQLite_rejects_null op)
  /\ (forall op this w,
        stmt this = nullptr -> world_of (Statement_run op this w) = w).
Proof.
  split; [|split].
  - apply Statement_checks_handle_rejects.
  - apply SQLite_checks_handle_rejects.
  - apply Statement_null_no_native_call.
Qed.

(** ** Moved-from objects *)

Lemma SQLite_move_ctor_eq other w :
  SQLite_move_ctor other w = (Returned (mkSQLite (db other)), mkSQLite nullptr, w).
Proof. reflexivity. Qed.

Lemma Statement_move_ctor_eq other w :
  Statement_move_ctor other w =
  (Returned (mkStatement (stmt other) (columnIndices other)),
   set_stmt nullptr other, w).
Proof. reflexivity. Qed.

Lemma update_same {T} (a : nat) (o : T) (h : heap T) : update a o h a = o.
Proof. unfold update. by rewrite Nat.eqb_refl. Qed.

Lemma update_other {T} (a b : nat) (o : T) (h : heap T) :
  a <> b -> update a o h b = h b.
Proof.
  intros H. unfold update. by rewrite (proj2 (Nat.eqb_neq b a)).
Qed.

Lemma SQLite_move_assign_source this other objects w :
  this <> other ->
  outcome_of (SQLite_move_assign this other objects w) = Returned tt ->
  db (object_of (SQLite_move_assign this other objects w) other) = nullptr.
Proof.
  intros Hne. apply Nat.eqb_neq in Hne.
  unfold SQLite_move_assign. rewrite Hne. cbn [negb].
  unfold noexcept, bind, on, get, put, outcome_of, object_of.
  destruct (SQLite_close (objects this) w) as [[[[]|x| |] o] w'];
    cbn [fst snd]; [|discriminate..].
  intros _. by rewrite update_same.
Qed.

Lemma Statement_move_assign_source this other objects w :
  this <> other ->
  outcome_of (Statement_move_assign this other objects w) = Returned tt ->
  stmt (object_of (Statement_move_assign this other objects w) other) = nullptr.
Proof.
  intros Hne. pose proof Hne as Hne'. apply Nat.eqb_neq in Hne.
  unfold Statement_move_assign. rewrite Hne. cbn [negb].
  unfold noexcept, modify, bind, on, get, put, outcome_of, object_of.
  destruct (Statement_finalize (objects this) w) as [[[[]|x| |] o] w'];
    cbn [fst snd]; [|discriminate..].
  intros _.
  repeat first [ rewrite update_same | rewrite update_other by done
               | progress cbn [stmt set_columnIndices set_stmt] ].
  reflexivity.
Qed.

Lemma SQLite_moved_from_null this : SQLite_moved_from this -> db this = nullptr.
Proof.
  intros [other w|this' other objects w Hne Hret]; [reflexivity|].
  by apply SQLite_move_assign_source.
Qed.

Lemma Statement_moved_from_null this :
  Statement_moved_from this -> stmt this = nullptr.
Proof.
  intros [other w|this' other objects w Hne Hret]; [reflexivity|].
  by apply Statement_move_assign_source.
Qed.

Lemma SQLite_dtor_null this w :
  db this = nullptr -> SQLite_dtor this w = (Returned tt, this, w).
Proof.
  intros H. unfold SQLite_dtor, noexcept. by rewrite SQLite_close_null.
Qed.

Lemma Statement_dtor_null this w :
  stmt this = nullptr -> Statement_dtor this w = (Returned tt, this, w).
Proof.
  intros H. unfold Statement_dtor, noexcept, Statement_finalize, bind, get,
    is_set.
  by rewrite (proj2 (Z.eqb_eq _ _) H).
Qed.

(** C3, as the code has it: a connection or statement that has been moved
    from (by move construction, or by a move assignment from another object
    that has returned) has a null handle; every operation on it that starts
    with the handle check raises [OtherError] for the missing handle, with
    no native call; and its destructor makes no native call and raises
    nothing. *)
Theorem moved_from_guard :
  (forall this,
     SQLite_moved_from this ->
     db this = nullptr
     /\ (forall op w,
           SQLite_checks_handle op = true ->
           SQLite_run op this w =
           (Raised (OtherError "SQLite database connection not initialized"),
            this, w))
     /\ (forall w, SQLite_dtor this w = (Returned tt, this, w)))
  /\ (forall this,
        Statement_moved_from this ->
        stmt this = nullptr
        /\ (forall op w,
              Statement_checks_handle op = true ->
              Statement_run op this w =
              (Raised (OtherError "SQLite statement not initialized"),
               this, w))
        /\ (forall w, Statement_dtor this w = (Returned tt, this, w))).
Proof.
  split.
  - intros this Hm. apply SQLite_moved_from_null in Hm.
    split; [done|]. split.
    + intros op w Hop. by apply SQLite_checks_handle_rejects.
    + intros w. by apply SQLite_dtor_null.
  - intros this Hm. apply Statement_moved_from_null in Hm.
    split; [done|]. split.
    + intros op w Hop. by apply Statement_checks_handle_rejects.
    + intros w. by apply Statement_dtor_null.
Qed.

Lemma Statement_finalize_null this w :
  stmt this = nullptr -> Statement_finalize this w = (Returned tt, this, w).
Proof.
  intros H. unfold Statement_finalize, bind, get, is_set.
  by rewrite (proj2 (Z.eqb_eq _ _) H).
Qed.

(** On a prepared statement [finalize] hands the handle to the engine; when
    the engine accepts, the handle is reset; when it refuses, the engine
    is asked for the connection of the statement it has just destroyed. *)
Lemma Statement_finalize_eq this w :
  stmt this <> nullptr ->
  Statement_finalize this w =
  let '(rc, e) := react _ (sqlite3_finalize (stmt this)) (engine w) in
  let w' := World e (trace w ++ [called (sqlite3_finalize (stmt this))]) in
  if rc =? SQLITE_OK then (Returned tt, set_stmt nullptr this, w')
  else (Undefined, this,
        World e (trace w' ++ [called (sqlite3_db_handle (stmt this))])).
Proof.
  intros Hstmt. unfold Statement_finalize, bind at 1, get, is_set.
  rewrite (proj2 (Z.eqb_neq _ _) Hstmt). cbn [negb].
  unfold bind at 1, native_call at 1.
  destruct (react _ (sqlite3_finalize (stmt this)) (engine w)) as [rc e].
  cbn zeta. destruct (rc =? SQLITE_OK); reflexivity.
Qed.

(** ** Returning or raising *)












Lemma ends_at_weaken {S A} (Q : A -> Prop) (m : M S A) s w :
  ends_at Q m s w -> ends_at (fun _ => True) m s w.
Proof. unfold ends_at. by destruct (outcome_of (m s w)). Qed.












(** ** The class of a classified error *)

Lemma classified_kind message errmsg code extended_code sql offset :
  kind_of (classified message errmsg code extended_code sql offset) =
  if 0 <=? offset then KSyntaxError
  else if code =? SQLITE_BUSY then KBusyError
  else if code =? SQLITE_MISUSE then KMisuseError
  else KError.
Proof. unfold classified. by repeat case_match. Qed.

(** ** Open flags *)

Lemma has_flag_bit (flags k : Z) :
  0 <= k -> has_flag flags (Z.shiftl 1 k) = Z.testbit flags k.
Proof.
  intros Hk. unfold has_flag. rewrite Z.shiftl_1_l.
  destruct (Z.testbit flags k) eqn:Hbit.
  - apply negb_true_iff, Z.eqb_neq. intros H0.
    assert (Z.testbit (Z.land flags (2 ^ k)) k = true) as Hl.
    { by rewrite Z.land_spec, Hbit, Z.pow2_bits_true. }
    by rewrite H0, Z.bits_0 in Hl.
  - apply negb_false_iff, Z.eqb_eq, Z.bits_inj'. intros n Hn.
    rewrite Z.land_spec, Z.bits_0, Z.pow2_bits_eqb by done.
    destruct (Z.eqb_spec k n) as [->|]; [by rewrite Hbit|].
    apply andb_false_r.
Qed.

Lemma testbit_add_flag (b : bool) (acc bits n : Z) :
  Z.testbit (if b then Z.lor acc bits else acc) n =
  Z.testbit acc n || (b && Z.testbit bits n).
Proof.
  destruct b; [by rewrite Z.lor_spec|]. by rewrite orb_false_r.
Qed.

(** Bit [n] of the translated flags. *)
Lemma toSQLiteOpenFlags_testbit (flags n : Z) :
  Z.testbit (toSQLiteOpenFlags flags) n =
  (Z.testbit flags 0 && (0 =? n)) || (Z.testbit flags 1 && (1 =? n))
  || (Z.testbit flags 2 && (2 =? n)) || (Z.testbit flags 3 && (6 =? n))
  || (Z.testbit flags 4 && (7 =? n)) || (Z.testbit flags 5 && (15 =? n))
  || (Z.testbit flags 6 && (16 =? n)) || (Z.testbit flags 7 && (17 =? n))
  || (Z.testbit flags 8 && (18 =? n)) || (Z.testbit flags 9 && (24 =? n)).
Proof.
  unfold toSQLiteOpenFlags. cbv zeta beta.
  rewrite !testbit_add_flag, Z.bits_0.
  unfold OpenFlags.ReadOnly, OpenFlags.ReadWrite, OpenFlags.Create,
    OpenFlags.URI, OpenFlags.Memory, OpenFlags.NoMutex, OpenFlags.FullMutex,
    OpenFlags.SharedCache, OpenFlags.PrivateCache, OpenFlags.NoFollow.
  rewrite !has_flag_bit by done.
  change SQLITE_OPEN_READONLY with (2 ^ 0).
  change SQLITE_OPEN_READWRITE with (2 ^ 1).
  change SQLITE_OPEN_CREATE with (2 ^ 2).
  change SQLITE_OPEN_URI with (2 ^ 6).
  change SQLITE_OPEN_MEMORY with (2 ^ 7).
  change SQLITE_OPEN_NOMUTEX with (2 ^ 15).
  change SQLITE_OPEN_FULLMUTEX with (2 ^ 16).
  change SQLITE_OPEN_SHAREDCACHE with (2 ^ 17).
  change SQLITE_OPEN_PRIVATECACHE with (2 ^ 18).
  change SQLITE_OPEN_NOFOLLOW with (2 ^ 24).
  rewrite !Z.pow2_bits_eqb by done.
  reflexivity.
Qed.

(** X1: each flag of [OpenFlags] sets its own bit of the engine's flags and no
    other: bit [n] of the translation is set exactly when [n] stands for a
    bit [k] that is set in the argument. *)
Theorem toSQLiteOpenFlags_bits (flags n : Z) :
  Z.testbit (toSQLiteOpenFlags flags) n = true <->
  exists k, (k, n) ∈ open_flag_bits /\ Z.testbit flags k = true.
Proof.
  rewrite toSQLiteOpenFlags_testbit. unfold open_flag_bits.
  rewrite !orb_true_iff, !andb_true_iff, !Z.eqb_eq. split.
  - intros H. repeat destruct H as [H|H]; destruct H as [Hbit <-];
      eexists; (split; [|exact Hbit]); set_solver.
  - intros (k & Hin & Hbit).
    rewrite !elem_of_cons, elem_of_nil in Hin.
    repeat destruct Hin as [Hin|Hin]; try done; simplify_eq; tauto.
Qed.

(** X2: translating the union of two sets of flags gives the union of their
    translations, and no flags give no bits. *)
Theorem toSQLiteOpenFlags_or (lhs rhs : Z) :
  toSQLiteOpenFlags (OpenFlags_or lhs rhs) =
  Z.lor (toSQLiteOpenFlags lhs) (toSQLiteOpenFlags rhs)
  /\ toSQLiteOpenFlags OpenFlags.None = 0.
Proof.
  split; [|reflexivity].
  apply Z.bits_inj'. intros n _.
  rewrite Z.lor_spec, !toSQLiteOpenFlags_testbit. unfold OpenFlags_or.
  rewrite !Z.lor_spec.
  repeat match goal with
         | |- context [?k =? n] =>
             destruct (Z.eqb_spec k n) as [<-|_];
             [cbn [Z.eqb Pos.eqb];
              by rewrite ?andb_true_r, ?andb_false_r, ?orb_false_r|]
         end.
  by rewrite ?andb_false_r.
Qed.

(** X3: a set of flags meets a union exactly when it meets one of the two
    parts; nothing meets [None]. *)
Theorem OpenFlags_and_or (lhs rhs flag : Z) :
  OpenFlags_and (OpenFlags_or lhs rhs) flag
  = OpenFlags_and lhs flag || OpenFlags_and rhs flag
  /\ OpenFlags_and OpenFlags.None flag = false.
Proof.
  split; [|unfold OpenFlags_and, OpenFlags.None; by rewrite Z.land_0_l].
  unfold OpenFlags_and, OpenFlags_or. rewrite Z.land_lor_distr_l.
  destruct (Z.eqb_spec (Z.land lhs flag) 0) as [->|Hl];
    destruct (Z.eqb_spec (Z.land rhs flag) 0) as [->|Hr]; cbn [negb orb].
  - reflexivity.
  - rewrite Z.lor_0_l. by apply negb_true_iff, Z.eqb_neq.
  - rewrite Z.lor_0_r. by apply negb_true_iff, Z.eqb_neq.
  - apply negb_true_iff, Z.eqb_neq. rewrite Z.lor_eq_0_iff. tauto.
Qed.

(** ** Column types *)

(** X4: [getColumnType] on a prepared statement makes one native call and
    leaves the statement as it is; it returns the type whose code the
    engine answers, and raises [OtherError] for an answer that is the code
    of no type. *)
Theorem getColumnType_codes (this : Statement) (index : Z) (w : world) :
  stmt this <> nullptr ->
  let '(code, e) :=
    react _ (sqlite3_column_type (stmt this) index) (engine w) in
  let w' :=
    World e (trace w ++ [called (sqlite3_column_type (stmt this) index)]) in
  (forall type,
     Statement_getColumnType index this w = (Returned type, this, w') <->
     DataType_code type = code)
  /\ (Statement_getColumnType index this w =
      (Raised (OtherError "unknown column type"), this, w') <->
      ~ (1 <= code <= 5)).
Proof.
  intros Hstmt. unfold Statement_getColumnType.
  rewrite ensure_then by done. unfold bind, get, native_call.
  destruct (react _ (sqlite3_column_type (stmt this) index) (engine w))
    as [code e].
  cbn zeta. unfold ret, throw.
  unfold SQLITE_INTEGER, SQLITE_FLOAT, SQLITE_TEXT, SQLITE_BLOB, SQLITE_NULL.
  destruct (Z.eqb_spec code 1) as [->|H1].
  { split; [intros []; unfold DataType_code, SQLITE_INTEGER, SQLITE_FLOAT, SQLITE_TEXT,
      SQLITE_BLOB, SQLITE_NULL; split; congruence|].
    split; [done|lia]. }
  destruct (Z.eqb_spec code 2) as [->|H2].
  { split; [intros []; unfold DataType_code, SQLITE_INTEGER, SQLITE_FLOAT, SQLITE_TEXT,
      SQLITE_BLOB, SQLITE_NULL; split; congruence|].
    split; [done|lia]. }
  destruct (Z.eqb_spec code 3) as [->|H3].
  { split; [intros []; unfold DataType_code, SQLITE_INTEGER, SQLITE_FLOAT, SQLITE_TEXT,
      SQLITE_BLOB, SQLITE_NULL; split; congruence|].
    split; [done|lia]. }
  destruct (Z.eqb_spec code 4) as [->|H4].
  { split; [intros []; unfold DataType_code, SQLITE_INTEGER, SQLITE_FLOAT, SQLITE_TEXT,
      SQLITE_BLOB, SQLITE_NULL; split; congruence|].
    split; [done|lia]. }
  destruct (Z.eqb_spec code 5) as [->|H5].
  { split; [intros []; unfold DataType_code, SQLITE_INTEGER, SQLITE_FLOAT, SQLITE_TEXT,
      SQLITE_BLOB, SQLITE_NULL; split; congruence|].
    split; [done|lia]. }
  split; [|split; [lia|done]].
  intros type. split; [done|].
  destruct type; unfold DataType_code, SQLITE_INTEGER, SQLITE_FLOAT,
    SQLITE_TEXT, SQLITE_BLOB, SQLITE_NULL; lia.
Qed.

(** X5: [to_string] gives the five types five different names, none of them
    the name kept for an unknown type. *)
Theorem to_string_injective (a b : DataType) :
  (to_string a = to_string b -> a = b) /\ to_string a <> "Unknown".
Proof. by destruct a, b. Qed.

(** ** Parameters by name *)

(** X6: a parameter name the engine does not know: [getParamIndex], and with
    it [param] and [bind] by name, raise [OtherError] after the one lookup,
    and no value is bound.  When [getParamIndex] returns, its result is the
    engine's index and is not 0. *)
Theorem unknown_parameter (this : Statement) (name : string) (w : world) :
  stmt this <> nullptr ->
  let lookup := sqlite3_bind_parameter_index (stmt this) name in
  let '(index, e) := react _ lookup (engine w) in
  let w' := World e (trace w ++ [called lookup]) in
  (index = 0 ->
   let x := OtherError ("parameter not found: " +:+ name) in
   Statement_getParamIndex name this w = (Raised x, this, w')
   /\ Statement_run (op_param (at_name name)) this w = (Raised x, this, w')
   /\ forall value,
        Statement_bind_name name value this w = (Raised x, this, w'))
  /\ (index <> 0 ->
      Statement_getParamIndex name this w = (Returned index, this, w')).
Proof.
  intros Hstmt lookup.
  assert (Statement_getParamIndex name this w =
          let '(index, e) := react _ lookup (engine w) in
          if index =? 0 then
            (Raised (OtherError ("parameter not found: " +:+ name)), this,
             World e (trace w ++ [called lookup]))
          else (Returned index, this, World e (trace w ++ [called lookup])))
    as Hget.
  { unfold Statement_getParamIndex. rewrite ensure_then by done.
    unfold bind, get, native_call. fold lookup.
    destruct (react _ lookup (engine w)) as [index e].
    by destruct (index =? 0). }
  destruct (react _ lookup (engine w)) as [index e]. cbn zeta. split.
  - intros ->. cbn in Hget. split; [done|]. split.
    + cbn [Statement_run param_at]. by apply bind_Raised.
    + intros value. unfold Statement_bind_name. by apply bind_Raised.
  - intros Hne. apply Z.eqb_neq in Hne. by rewrite Hne in Hget.
Qed.

(** ** Column metadata *)

(** X7: in a build without column metadata the three metadata getters raise
    [OtherError] for every column index and every statement, prepared or
    not, without a native call. *)
Theorem metadata_getters_disabled (this : Statement) (index : Z) (w : world) :
  COLUMN_METADATA = false ->
  let x :=
    OtherError
      "column metadata not enabled, to enable, define SQLITE_ENABLE_COLUMN_METADATA"
  in
  Statement_getColumnOriginName index this w = (Raised x, this, w)
  /\ Statement_getColumnTableName index this w = (Raised x, this, w)
  /\ Statement_getColumnDatabaseName index this w = (Raised x, this, w).
Proof.
  intros H x.
  unfold Statement_getColumnOriginName, Statement_getColumnTableName,
    Statement_getColumnDatabaseName.
  by rewrite H.
Qed.

(** ** Binding *)

(** Raising through the connection of a statement. *)
Lemma raise_via_db_handle (message : string) this w :
  bind (native_call (sqlite3_db_handle (stmt this)))
    (fun h => throwSQLiteError h message "") this w
  = raised_from_statement (stmt this) message this w.
Proof.
  unfold raised_from_statement, bind, native_call.
  destruct (react _ (sqlite3_db_handle (stmt this)) (engine w)) as [h e1].
  rewrite throwSQLiteError_no_sql. cbn [engine trace].
  destruct (diagnostics h false e1) as [[[[code ext] errmsg] o] e2].
  by rewrite <- app_assoc.
Qed.

(** The test of a result code that ends [finalize], [bind], [reset] and
    [clearBindings]. *)
Lemma check_via_db_handle (rc : Z) (message : string) this w :
  (if negb (rc =? SQLITE_OK) then
     bind (native_call (sqlite3_db_handle (stmt this)))
       (fun h => throwSQLiteError h message "")
   else ret tt) this w =
  if rc =? SQLITE_OK then (Returned tt, this, w)
  else raised_from_statement (stmt this) message this w.
Proof.
  destruct (rc =? SQLITE_OK); cbn [negb]; [reflexivity|].
  apply raise_via_db_handle.
Qed.




(** ** Reset, clear and finalize *)

Lemma Statement_reset_eq this w :
  stmt this <> nullptr ->
  Statement_reset this w =
  let '(rc, e) := react _ (sqlite3_reset (stmt this)) (engine w) in
  let w' := World e (trace w ++ [called (sqlite3_reset (stmt this))]) in
  if rc =? SQLITE_OK then (Returned tt, this, w')
  else raised_from_statement (stmt this) "failed to reset statement" this w'.
Proof.
  intros Hstmt. unfold Statement_reset. rewrite ensure_then by done.
  unfold bind at 1 2, get, native_call.
  destruct (react _ (sqlite3_reset (stmt this)) (engine w)) as [rc e].
  apply check_via_db_handle.
Qed.

(** X9: [reuse] on a prepared statement resets and then clears the bindings;
    when the reset is refused it raises the classified error of the reset
    and the bindings are not cleared. *)
Theorem reuse_reset_then_clear (this : Statement) (w : world) :
  stmt this <> nullptr ->
  let '(rc, e) := react _ (sqlite3_reset (stmt this)) (engine w) in
  let w' := World e (trace w ++ [called (sqlite3_reset (stmt this))]) in
  (rc = SQLITE_OK -> Statement_reuse this w = Statement_clearBindings this w')
  /\ (rc <> SQLITE_OK ->
      Statement_reuse this w =
      raised_from_statement (stmt this) "failed to reset statement" this w').
Proof.
  intros Hstmt. pose proof (Statement_reset_eq this w Hstmt) as H.
  destruct (react _ (sqlite3_reset (stmt this)) (engine w)) as [rc e].
  cbn zeta in *. unfold Statement_reuse. split.
  - intros ->. cbn in H. by rewrite (bind_Returned _ _ _ _ _ _ _ H).
  - intros Hrc. apply Z.eqb_neq in Hrc. rewrite Hrc in H.
    unfold raised_from_statement in *.
    destruct (react _ (sqlite3_db_handle (stmt this)) _) as [h e1].
    destruct (diagnostics h false e1) as [[[[code ext] errmsg] o] e2].
    by rewrite (bind_Raised _ _ _ _ _ _ _ H).
Qed.

(** X10: [finalize] does nothing on a statement without a handle; on a prepared
    statement it releases the handle when the engine accepts, keeping the
    column map.  When the engine refuses, no error is raised: the engine is
    asked for the connection of the statement it has just destroyed, the
    behaviour is undefined from there on, and the statement still holds
    the dangling handle.  Finalizing twice is finalizing once. *)
Theorem finalize_outcomes (this : Statement) (w : world) :
  (stmt this = nullptr -> Statement_finalize this w = (Returned tt, this, w))
  /\ (stmt this <> nullptr ->
      let '(rc, e) := react _ (sqlite3_finalize (stmt this)) (engine w) in
      let w' :=
        World e (trace w ++ [called (sqlite3_finalize (stmt this))]) in
      (rc = SQLITE_OK ->
       Statement_finalize this w =
       (Returned tt, mkStatement nullptr (columnIndices this), w'))
      /\ (rc <> SQLITE_OK ->
          Statement_finalize this w =
          (Undefined, this,
           World e (trace w' ++ [called (sqlite3_db_handle (stmt this))]))))
  /\ bind Statement_finalize (fun _ => Statement_finalize) this w
     = Statement_finalize this w.
Proof.
  split; [apply Statement_finalize_null|]. split.
  - intros Hstmt. pose proof (Statement_finalize_eq this w Hstmt) as H.
    destruct (react _ (sqlite3_finalize (stmt this)) (engine w)) as [rc e].
    cbn zeta in *. split.
    + by intros ->.
    + intros Hrc. apply Z.eqb_neq in Hrc. by rewrite Hrc in H.
  - destruct (decide (stmt this = nullptr)) as [Hstmt|Hstmt].
    + by rewrite (bind_Returned _ _ _ _ _ _ _
                    (Statement_finalize_null _ _ Hstmt)).
    + pose proof (Statement_finalize_eq this w Hstmt) as H.
      destruct (react _ (sqlite3_finalize (stmt this)) (engine w)) as [rc e].
      cbn zeta in H. destruct (rc =? SQLITE_OK).
      * rewrite (bind_Returned _ _ _ _ _ _ _ H), H.
        by apply Statement_finalize_null.
      * unfold bind. by rewrite H.
Qed.

(** X11: after a [finalize] that has returned, the statement is as one that was
    never prepared: every operation that starts with the handle check
    raises [OtherError] without a native call, [operator bool] is false, and
    neither a second [finalize] nor the destructor calls the engine. *)
Theorem use_after_finalize (this : Statement) (w : world) :
  outcome_of (Statement_finalize this w) = Returned tt ->
  let finalized := object_of (Statement_finalize this w) in
  stmt finalized = nullptr
  /\ columnIndices finalized = columnIndices this
  /\ (forall op w',
        Statement_checks_handle op = true ->
        Statement_run op finalized w' =
        (Raised (OtherError "SQLite statement not initialized"),
         finalized, w'))
  /\ (forall w',
        Statement_bool finalized w' = (Returned false, finalized, w')
        /\ Statement_finalize finalized w' = (Returned tt, finalized, w')
        /\ Statement_dtor finalized w' = (Returned tt, finalized, w')).
Proof.
  intros Hret finalized.
  assert (stmt finalized = nullptr) as Hnull.
  { subst finalized. destruct (decide (stmt this = nullptr)) as [Hstmt|Hstmt].
    - by rewrite Statement_finalize_null.
    - rewrite (Statement_finalize_eq _ _ Hstmt) in Hret |- *.
      destruct (react _ (sqlite3_finalize (stmt this)) (engine w)) as [rc e].
      cbn zeta in *. by destruct (rc =? SQLITE_OK). }
  split; [done|]. split.
  { apply Statement_finalize_keeps_columnIndices. }
  split.
  { intros op w' Hop. by apply Statement_checks_handle_rejects. }
  intros w'. split; [|split].
  - unfold Statement_bool, bind, get, ret, is_set.
    by rewrite (proj2 (Z.eqb_eq _ _) Hnull).
  - by apply Statement_finalize_null.
  - by apply Statement_dtor_null.
Qed.

(** ** Moving and destroying *)

Lemma noexcept_Raised {S A} (m : M S A) s w x s' w' :
  m s w = (Raised x, s', w') -> noexcept m s w = (Terminated, s', w').
Proof. intros H. unfold noexcept. by rewrite H. Qed.

(** X12: a move assignment between two different statements that returns hands
    the handle and the column map of the source to the target, leaves the
    source without a handle, touches no other object, and has finalized the
    handle the target held, if it held one; when that finalize is refused,
    the engine is asked for the connection of the statement it has just
    destroyed, and the behaviour is undefined from there on.  A move
    assignment of a statement to itself does nothing. *)
Theorem Statement_move_assign_transfers (this other : nat)
    (objects : heap Statement) (w : world) :
  this <> other ->
  let r := Statement_move_assign this other objects w in
  let target := objects this in
  let source := objects other in
  (outcome_of r = Returned tt ->
   object_of r this = mkStatement (stmt source) (columnIndices source)
   /\ stmt (object_of r other) = nullptr
   /\ (forall a, a <> this -> a <> other -> object_of r a = objects a)
   /\ trace (world_of r) =
      trace w ++ (if is_set (stmt target)
                  then [called (sqlite3_finalize (stmt target))] else []))
  /\ (stmt target <> nullptr ->
      (react _ (sqlite3_finalize (stmt target)) (engine w)).1 <> SQLITE_OK ->
      outcome_of r = Undefined
      /\ trace (world_of r) =
         trace w ++ [called (sqlite3_finalize (stmt target));
                     called (sqlite3_db_handle (stmt target))])
  /\ Statement_move_assign this this objects w = (Returned tt, objects, w).
Proof.
  intros Hne r target source.
  assert (match Statement_finalize target w with
          | (Returned _, o, w') =>
              exists h',
                r = (Returned tt, h', w')
                /\ h' this = mkStatement (stmt source) (columnIndices source)
                /\ stmt (h' other) = nullptr
                /\ forall a, a <> this -> a <> other -> h' a = objects a
          | (Raised _, o, w') | (Terminated, o, w') =>
              exists h', r = (Terminated, h', w')
          | (Undefined, o, w') => exists h', r = (Undefined, h', w')
          end) as Hr.
  { subst r. unfold Statement_move_assign.
    rewrite (proj2 (Nat.eqb_neq _ _) Hne). cbn [negb].
    unfold noexcept, modify, bind, on, get, put. fold target.
    destruct (Statement_finalize target w) as [[[[]|x| |] o] w'];
      [|by eexists..].
    eexists. split; [reflexivity|].
    split; [|split; [|intros a Ha Hb]];
      repeat first [ rewrite update_same | rewrite update_other by done
                   | progress cbn [stmt columnIndices set_columnIndices
                                     set_stmt] ];
      reflexivity. }
  split; [|split].
  - destruct (decide (stmt target = nullptr)) as [Hnull|Hset].
    + rewrite (Statement_finalize_null _ _ Hnull) in Hr.
      destruct Hr as (h' & -> & Hthis & Hother & Hrest). intros _.
      unfold object_of, world_of, is_set. cbn [fst snd].
      rewrite (proj2 (Z.eqb_eq _ _) Hnull). cbn [negb].
      by rewrite app_nil_r.
    + rewrite (Statement_finalize_eq _ _ Hset) in Hr.
      destruct (react _ (sqlite3_finalize (stmt target)) (engine w))
        as [rc e].
      cbn zeta in Hr. destruct (rc =? SQLITE_OK).
      * destruct Hr as (h' & -> & Hthis & Hother & Hrest). intros _.
        unfold object_of, world_of, is_set. cbn [fst snd trace].
        by rewrite (proj2 (Z.eqb_neq _ _) Hset).
      * by destruct Hr as (h' & ->).
  - intros Hset Hrc.
    rewrite (Statement_finalize_eq _ _ Hset) in Hr.
    destruct (react _ (sqlite3_finalize (stmt target)) (engine w)) as [rc e].
    cbn [fst] in Hrc. cbn zeta in Hr.
    rewrite (proj2 (Z.eqb_neq _ _) Hrc) in Hr.
    destruct Hr as (h' & ->). split; [reflexivity|].
    unfold world_of. cbn [snd trace]. by rewrite <- app_assoc.
  - unfold Statement_move_assign. by rewrite Nat.eqb_refl.
Qed.

(** X13: a move assignment between two different connections that returns
    hands the handle of the source to the target, leaves the source without
    a handle, touches no other object, and has closed the handle the target
    held, if it held one; when that close is refused, the exception meets
    [noexcept] and the program is terminated.  A move assignment of a
    connection to itself does nothing. *)
Theorem SQLite_move_assign_transfers (this other : nat)
    (objects : heap SQLite) (w : world) :
  this <> other ->
  let r := SQLite_move_assign this other objects w in
  let target := objects this in
  let source := objects other in
  (outcome_of r = Returned tt ->
   object_of r this = mkSQLite (db source)
   /\ db (object_of r other) = nullptr
   /\ (forall a, a <> this -> a <> other -> object_of r a = objects a)
   /\ trace (world_of r) =
      trace w ++ (if is_set (db target)
                  then [called (sqlite3_close (db target))] else []))
  /\ (db target <> nullptr ->
      (react _ (sqlite3_close (db target)) (engine w)).1 <> SQLITE_OK ->
      outcome_of r = Terminated)
  /\ SQLite_move_assign this this objects w = (Returned tt, objects, w).
Proof.
  intros Hne r target source.
  assert (match SQLite_close target w with
          | (Returned _, o, w') =>
              exists h',
                r = (Returned tt, h', w')
                /\ h' this = mkSQLite (db source)
                /\ db (h' other) = nullptr
                /\ forall a, a <> this -> a <> other -> h' a = objects a
          | (Raised _, o, w') | (Terminated, o, w') =>
              exists h', r = (Terminated, h', w')
          | (Undefined, o, w') => exists h', r = (Undefined, h', w')
          end) as Hr.
  { subst r. unfold SQLite_move_assign.
    rewrite (proj2 (Nat.eqb_neq _ _) Hne). cbn [negb].
    unfold noexcept, bind, on, get, put. fold target.
    destruct (SQLite_close target w) as [[[[]|x| |] o] w']; [|by eexists..].
    eexists. split; [reflexivity|].
    split; [|split; [|intros a Ha Hb]];
      repeat first [ rewrite update_same | rewrite update_other by done
                   | progress cbn [db] ];
      reflexivity. }
  split; [|split].
  - destruct (decide (db target = nullptr)) as [Hnull|Hset].
    + rewrite (SQLite_close_null _ _ Hnull) in Hr.
      destruct Hr as (h' & -> & Hthis & Hother & Hrest). intros _.
      unfold object_of, world_of, is_set. cbn [fst snd].
      rewrite (proj2 (Z.eqb_eq _ _) Hnull). cbn [negb].
      by rewrite app_nil_r.
    + rewrite (SQLite_close_eq _ _ Hset) in Hr.
      destruct (react _ (sqlite3_close (db target)) (engine w)) as [rc e].
      cbn zeta in Hr. destruct (rc =? SQLITE_OK).
      * destruct Hr as (h' & -> & Hthis & Hother & Hrest). intros _.
        unfold object_of, world_of, is_set. cbn [fst snd trace].
        by rewrite (proj2 (Z.eqb_neq _ _) Hset).
      * rewrite throwSQLiteError_no_sql in Hr.
        destruct (diagnostics _ _ _) as [[[[code ext] errmsg] o] e2].
        by destruct Hr as (h' & ->).
  - intros Hset Hrc.
    rewrite (SQLite_close_eq _ _ Hset) in Hr.
    destruct (react _ (sqlite3_close (db target)) (engine w)) as [rc e].
    cbn [fst] in Hrc. cbn zeta in Hr.
    rewrite (proj2 (Z.eqb_neq _ _) Hrc) in Hr.
    rewrite throwSQLiteError_no_sql in Hr.
    destruct (diagnostics _ _ _) as [[[[code ext] errmsg] o] e2].
    by destruct Hr as (h' & ->).
  - unfold SQLite_move_assign. by rewrite Nat.eqb_refl.
Qed.

(** X14: a destructor calls the engine once, to close or finalize the handle, or
    not at all when there is no handle.  When the engine refuses the close,
    the exception of [close] meets the destructor's [noexcept] and the
    program is terminated, the handle still in place.  When the engine
    refuses the finalize, the destructor asks the engine for the connection
    of the statement just destroyed: the behaviour is undefined from there
    on. *)
Theorem destructor_outcomes :
  (forall (this : SQLite) (w : world),
     (db this = nullptr -> SQLite_dtor this w = (Returned tt, this, w))
     /\ (db this <> nullptr ->
         let '(rc, e) := react _ (sqlite3_close (db this)) (engine w) in
         (rc = SQLITE_OK ->
          SQLite_dtor this w =
          (Returned tt, mkSQLite nullptr,
           World e (trace w ++ [called (sqlite3_close (db this))])))
         /\ (rc <> SQLITE_OK ->
             outcome_of (SQLite_dtor this w) = Terminated
             /\ object_of (SQLite_dtor this w) = this)))
  /\ (forall (this : Statement) (w : world),
        (stmt this = nullptr -> Statement_dtor this w = (Returned tt, this, w))
        /\ (stmt this <> nullptr ->
            let '(rc, e) :=
              react _ (sqlite3_finalize (stmt this)) (engine w) in
            (rc = SQLITE_OK ->
             Statement_dtor this w =
             (Returned tt, mkStatement nullptr (columnIndices this),
              World e (trace w ++ [called (sqlite3_finalize (stmt this))])))
            /\ (rc <> SQLITE_OK ->
                Statement_dtor this w =
                (Undefined, this,
                 World e (trace w ++
                            [called (sqlite3_finalize (stmt this));
                             called (sqlite3_db_handle (stmt this))]))))).
Proof.
  split; intros this w; (split; [by (apply SQLite_dtor_null
                                     || apply Statement_dtor_null)|]);
    intros Hset.
  - unfold SQLite_dtor, noexcept. rewrite (SQLite_close_eq _ _ Hset).
    destruct (react _ (sqlite3_close (db this)) (engine w)) as [rc e].
    cbn zeta. split.
    + by intros ->.
    + intros Hrc. rewrite (proj2 (Z.eqb_neq _ _) Hrc).
      rewrite throwSQLiteError_no_sql.
      by destruct (diagnostics _ _ _) as [[[[code ext] errmsg] o] e2].
  - unfold Statement_dtor, noexcept. rewrite (Statement_finalize_eq _ _ Hset).
    destruct (react _ (sqlite3_finalize (stmt this)) (engine w)) as [rc e].
    cbn zeta. split.
    + by intros ->.
    + intros Hrc. rewrite (proj2 (Z.eqb_neq _ _) Hrc).
      cbn [trace]. by rewrite <- app_assoc.
Qed.

(** ** What an operation leaves of its object *)

Lemma keeps_construct {S T U} (f : S -> U) (init : T) (ctor : M T unit) :
  keeps f (@construct S T init ctor).
Proof.
  intros s w. unfold construct.
  by destruct (ctor init w) as [[[a|x| |] o] w'].
Qed.

Lemma Statement_run_keeps {T} (f : Statement -> T) op :
  op <> op_finalize -> keeps f (Statement_run op).
Proof.
  intros Hop.
  destruct op; try done; cbn [Statement_run];
    try (unfold Statement_bindAll; apply keeps_bind;
         [apply keeps_Statement_bindHelper|intros; apply keeps_ret]);
    try (apply keeps_bind; [|intros ?; apply keeps_bind;
         [apply keeps_Statement_bind|intros; apply keeps_ret]]);
    try match goal with
        | |- keeps _ (Parameter_run _ ?m) =>
            destruct m; cbn [Parameter_run];
            [apply keeps_bind;
             [apply keeps_Statement_bind|intros; apply keeps_ret]|]
        | |- keeps _ (Column_run _ ?m) => destruct m; cbn [Column_run]
        end;
    unfold Statement_getParamIndex, Statement_getParamName,
      param_at, column_at, Statement_columnCount, Statement_count,
      Statement_columnCount, Statement_getColumnIndex, Statement_getColumnType,
      Statement_getColumnDeclType, Statement_getColumnName,
      Statement_getColumnOriginName, Statement_getColumnTableName,
      Statement_getColumnDatabaseName, metadata_disabled, Statement_read,
      Statement_getInt, Statement_getInt64, Statement_getDouble,
      Statement_getString, Statement_getBlob,
      Statement_exec, Statement_execute, Statement_step, Statement_reuse,
      Statement_reset, Statement_clearBindings, Statement_bool,
      Statement_getParamIndex, Statement_ensure;
    repeat keeps_step.
Qed.

(** X15: however it ends, no operation on a statement other than [finalize]
    changes the statement, and a [finalize] that does not return leaves it
    unchanged too; [prepare], [exec], [execute] and [operator bool] never
    change the connection, and a [close] that raises leaves it
    unchanged. *)
Theorem operations_keep_the_object :
  (forall op this w,
     op <> op_finalize -> object_of (Statement_run op this w) = this)
  /\ (forall this w,
        outcome_of (Statement_finalize this w) <> Returned tt ->
        object_of (Statement_finalize this w) = this)
  /\ (forall op this w,
        op <> op_close -> (forall dbName flags, op <> op_open dbName flags) ->
        object_of (SQLite_run op this w) = this)
  /\ (forall this w x,
        outcome_of (SQLite_close this w) = Raised x ->
        object_of (SQLite_close this w) = this).
Proof.
  split; [|split; [|split]].
  - intros op this w Hop.
    exact (Statement_run_keeps (fun s => s) op Hop this w).
  - intros this w.
    destruct (decide (stmt this = nullptr)) as [Hnull|Hset].
    + by rewrite Statement_finalize_null.
    + rewrite (Statement_finalize_eq _ _ Hset).
      destruct (react _ (sqlite3_finalize (stmt this)) (engine w)) as [rc e].
      cbn zeta. by destruct (rc =? SQLITE_OK).
  - intros op this w Hclose Hopen. revert this w.
    change (keeps (fun s : SQLite => s) (SQLite_run op)).
    destruct op; try done; [by destruct (Hopen dbName flags)|..];
      cbn [SQLite_run];
      unfold SQLite_prepare, SQLite_execute, SQLite_exec, SQLite_bool,
        SQLite_ensure;
      repeat first [ apply keeps_construct | keeps_step ].
  - intros this w x.
    destruct (decide (db this = nullptr)) as [Hnull|Hset].
    + by rewrite SQLite_close_null.
    + rewrite (SQLite_close_eq _ _ Hset).
      destruct (react _ (sqlite3_close (db this)) (engine w)) as [rc e].
      cbn zeta. destruct (rc =? SQLITE_OK); [done|].
      rewrite throwSQLiteError_no_sql.
      by destruct (diagnostics _ _ _) as [[[[code ext] errmsg] o] e2].
Qed.

(** ** What is raised *)

Lemma raises_ret {S A} (P : exn -> Prop) (a : A) : raises P (@ret S A a).
Proof. by intros s w. Qed.

Lemma raises_throw {S A} (P : exn -> Prop) (x : exn) :
  P x -> raises P (@throw S A x).
Proof. by intros H s w. Qed.

Lemma raises_get {S} (P : exn -> Prop) : raises P (@get S).
Proof. by intros s w. Qed.

Lemma raises_modify {S} (P : exn -> Prop) (g : S -> S) : raises P (modify g).
Proof. by intros s w. Qed.

Lemma raises_put {S} (P : exn -> Prop) (s : S) : raises P (put s).
Proof. by intros s' w. Qed.

Lemma raises_native_call {S X} (P : exn -> Prop) (c : native X) :
  raises P (@native_call S X c).
Proof.
  intros s w. unfold native_call. by destruct (react X c (engine w)).
Qed.

Lemma raises_bind {S A B} (P : exn -> Prop) (m : M S A) (k : A -> M S B) :
  raises P m -> (forall a, raises P (k a)) -> raises P (bind m k).
Proof.
  intros Hm Hk s w. specialize (Hm s w). unfold bind.
  destruct (m s w) as [[[a|x| |] s'] w']; cbn in Hm; [|done..].
  apply Hk.
Qed.

Lemma raises_construct {S T} (P : exn -> Prop) (init : T) (ctor : M T unit) :
  raises P ctor -> raises P (@construct S T init ctor).
Proof.
  intros Hm s w. specialize (Hm init w). unfold construct.
  by destruct (ctor init w) as [[[a|x| |] s'] w'].
Qed.

Lemma raises_throwSQLiteError {S} (P : exn -> Prop) h message sql :
  (forall errmsg code extended_code offset,
     (sql = "" -> offset = -1) ->
     P (classified message errmsg code extended_code sql offset)) ->
  raises P (@throwSQLiteError S h message sql).
Proof.
  intros HP s w. rewrite throwSQLiteError_eq. unfold diagnostics.
  destruct (react _ (sqlite3_errcode h) (engine w)) as [code e1].
  destruct (react _ (sqlite3_extended_errcode h) e1) as [ext e2].
  destruct (react _ (sqlite3_errmsg h) e2) as [errmsg e3].
  destruct (empty sql) eqn:Hsql; cbn [negb].
  - by apply HP.
  - destruct (react _ (sqlite3_error_offset h) e3) as [offset e4].
    apply HP. intros ->. by rewrite (proj2 (empty_spec "")) in Hsql.
Qed.

Lemma classified_well_classified message errmsg code extended_code sql offset :
  (sql = "" -> offset = -1) ->
  well_classified (classified message errmsg code extended_code sql offset).
Proof.
  intros Hsql. unfold classified.
  destruct (Z.leb_spec 0 offset) as [Hoff|Hoff].
  - split; [|done]. intros H. specialize (Hsql H). lia.
  - destruct (Z.eqb_spec code SQLITE_BUSY) as [->|Hb]; [done|].
    by destruct (Z.eqb_spec code SQLITE_MISUSE) as [->|Hm].
Qed.

Lemma classified_no_sql_kind message errmsg code extended_code offset :
  (@eq string "" "" -> offset = -1) ->
  kind_of (classified message errmsg code extended_code "" offset)
  <> KSyntaxError.
Proof.
  intros H. rewrite (H eq_refl), classified_kind.
  change (0 <=? -1) with false. cbn iota. by repeat case_match.
Qed.

Lemma raises_native_call_on_destroyed {S X} (P : exn -> Prop)
    (c : native X) :
  raises P (@native_call_on_destroyed S X c).
Proof. by intros s w. Qed.

Lemma raises_std_string {S} (P : exn -> Prop) (p : string) (n : Z) :
  (forall message, P (length_error message)) ->
  raises P (@std_string S p n).
Proof.
  intros HP s w. unfold std_string.
  destruct (n <? 0); [apply HP|].
  destruct (n <=? _); [done|]. by destruct (n =? _).
Qed.

Ltac raises_step close :=
  match goal with
  | |- raises _ (bind _ _) => apply raises_bind; [|intros ?]
  | |- raises _ (native_call_on_destroyed _) =>
      apply raises_native_call_on_destroyed
  | |- raises _ (std_string _ _) => apply raises_std_string; intros ?; close
  | |- raises _ (ret _) => apply raises_ret
  | |- raises _ (throw _) => apply raises_throw; close
  | |- raises _ get => apply raises_get
  | |- raises _ (put _) => apply raises_put
  | |- raises _ (modify _) => apply raises_modify
  | |- raises _ (native_call _) => apply raises_native_call
  | |- raises _ (throwSQLiteError _ _ _) =>
      apply raises_throwSQLiteError; close
  | |- raises _ (construct _ _) => apply raises_construct
  | |- raises _ (if ?c then _ else _) => destruct c
  | |- raises _ (match ?x with _ => _ end) => destruct x
  end.

Ltac close_well_classified :=
  first [ exact I | intros; by apply classified_well_classified ].

Ltac close_no_syntax :=
  first [ discriminate | intros; by apply classified_no_sql_kind ].

Lemma raises_Statement_bindHelper (P : exn -> Prop) index args :
  (forall index value, raises P (Statement_bind index value)) ->
  raises P (Statement_bindHelper index args).
Proof.
  intros Hbind. revert index.
  induction args as [|value args IH]; intros index; cbn.
  - apply raises_ret.
  - apply raises_bind; [apply Hbind|intros _; apply IH].
Qed.

Lemma raises_initializeColumnIndices_from (P : exn -> Prop) n i :
  raises P (initializeColumnIndices_from n i).
Proof.
  revert i. induction n as [|n IH]; intros i; cbn.
  - apply raises_ret.
  - repeat raises_step idtac; apply IH.
Qed.

Ltac raises_Statement_run close :=
  let bind_ok :=
    (intros; unfold Statement_bind, Statement_ensure, bind_check;
     repeat raises_step close) in
  match goal with
  | |- raises _ (Statement_run ?op) =>
      destruct op; cbn [Statement_run];
      try (unfold Statement_bindAll; apply raises_bind;
           [apply raises_Statement_bindHelper; bind_ok
           |intros; apply raises_ret]);
      try match goal with
          | |- raises _ (Parameter_run _ ?m) => destruct m; cbn [Parameter_run]
          | |- raises _ (Column_run _ ?m) => destruct m; cbn [Column_run]
          end;
      unfold Statement_finalize, Statement_getParamIndex,
        Statement_getParamName, param_at, column_at, Statement_bind,
        Statement_columnCount, Statement_count, Statement_columnCount,
        Statement_getColumnIndex, Statement_getColumnType,
        Statement_getColumnDeclType, Statement_getColumnName,
        Statement_getColumnOriginName, Statement_getColumnTableName,
        Statement_getColumnDatabaseName, metadata_disabled, Statement_read,
        Statement_getInt, Statement_getInt64, Statement_getDouble,
        Statement_getString, Statement_getBlob,
        Statement_exec, Statement_execute, Statement_step, Statement_reuse,
        Statement_reset, Statement_clearBindings, Statement_bool,
        Statement_getParamIndex, Statement_ensure, bind_check;
      repeat raises_step close
  end.

(** X16: every exception an operation on a statement or a connection raises is
    as the classification builds it: a [SyntaxError] carries SQL text that
    is not empty and an offset that is not negative, a [BusyError] the code
    [SQLITE_BUSY], a [MisuseError] the code [SQLITE_MISUSE], and a plain
    [Error] a code that is neither. *)
Theorem raised_errors_well_classified :
  (forall op, raises well_classified (Statement_run op))
  /\ (forall op, raises well_classified (SQLite_run op)).
Proof.
  split; intros op.
  - raises_Statement_run close_well_classified.
  - destruct op; cbn [SQLite_run];
      unfold SQLite_open, SQLite_close, SQLite_prepare, SQLite_execute,
        SQLite_exec, SQLite_bool, SQLite_ensure, Statement_ctor,
        Statement_initializeColumnIndices;
      repeat first [ apply raises_initializeColumnIndices_from
                   | raises_step close_well_classified ].
Qed.

(** X17: no operation on a statement raises [SyntaxError], nor do [open] and
    [close]: it comes only from [exec] and [prepare], which pass SQL
    text. *)
Theorem SyntaxError_only_from_SQL :
  (forall op,
     raises (fun x => kind_of x <> KSyntaxError) (Statement_run op))
  /\ (forall dbName flags,
        raises (fun x => kind_of x <> KSyntaxError) (SQLite_open dbName flags))
  /\ raises (fun x => kind_of x <> KSyntaxError) SQLite_close.
Proof.
  split; [|split].
  - intros op. raises_Statement_run close_no_syntax.
  - intros dbName flags. unfold SQLite_open.
    repeat raises_step close_no_syntax.
  - unfold SQLite_close. repeat raises_step close_no_syntax.
Qed.

(** ** Preparing *)

Lemma SQLite_ensure_set this w :
  db this <> nullptr -> SQLite_ensure this w = (Returned tt, this, w).
Proof.
  intros H. apply Z.eqb_neq in H.
  unfold SQLite_ensure, bind, get. by rewrite H.
Qed.

(** X18: [prepare] on an open connection never changes the connection.  When
    the engine refuses, it raises the classified error, the SQL text
    passed along, and the engine is not asked about columns.  When the
    engine accepts, the statement returned holds the handle the engine
    wrote, which is not looked at: if the engine wrote a null handle, every
    operation on that statement that starts with the handle check raises
    [OtherError]. *)
Theorem prepare_outcomes (this : SQLite) (sql : string) (persistent : bool)
    (w : world) :
  db this <> nullptr ->
  let prepare :=
    sqlite3_prepare_v3 (db this) sql (-1)
      (if persistent then SQLITE_PREPARE_PERSISTENT else 0) in
  let '(rc, written, e) := react _ prepare (engine w) in
  let r := SQLite_prepare sql persistent this w in
  (rc <> SQLITE_OK ->
   let '(code, extended_code, errmsg, offset, e') :=
     diagnostics (db this) (negb (empty sql)) e in
   r = (Raised (classified "failed to prepare statement" errmsg code
                  extended_code sql offset),
        this,
        World e' (trace w ++ called prepare
                    :: diagnostic_calls (db this) (negb (empty sql)))))
  /\ (rc = SQLITE_OK ->
      exists st w',
        r = (Returned st, this, w')
        /\ stmt st = written
        /\ (written = nullptr ->
            forall op w'',
              Statement_checks_handle op = true ->
              Statement_run op st w'' =
              (Raised (OtherError "SQLite statement not initialized"),
               st, w''))).
Proof.
  intros Hdb prepare.
  destruct (react _ prepare (engine w)) as [[rc written] e] eqn:Hr.
  intros r.
  assert (r = construct Statement_default
                (Statement_ctor (db this) sql persistent) this w) as ->.
  { subst r. unfold SQLite_prepare.
    rewrite (bind_Returned _ _ _ _ _ _ _ (SQLite_ensure_set _ _ Hdb)).
    reflexivity. }
  unfold construct. split.
  - intros Hrc.
    rewrite (Statement_ctor_failed _ _ _ _ _ _ _ Hr Hrc).
    fold prepare. unfold bind at 1. rewrite throwSQLiteError_eq.
    cbn [engine trace].
    destruct (diagnostics (db this) (negb (empty sql)) e)
      as [[[[code ext] errmsg] offset] e'].
    by rewrite <- app_assoc.
  - intros ->.
    rewrite (Statement_ctor_eq _ _ _ _ _ _ Hr).
    destruct (react _ (sqlite3_column_count written) e) as [columnCount e1].
    cbn zeta.
    destruct (column_names written (Z.to_nat columnCount) 0 e1)
      as [names e2].
    eexists _, _. split; [reflexivity|]. split; [reflexivity|].
    intros -> op w'' Hop. by apply Statement_checks_handle_rejects.
Qed.

(** ** Opening *)

Lemma diagnostic_calls_not_close h with_offset :
  Forall (fun c => is_close c = false) (diagnostic_calls h with_offset).
Proof.
  unfold diagnostic_calls. destruct with_offset; repeat constructor.
Qed.

(** X19: [open] does not look at the handle the connection holds: it ends the
    same way on every connection, and it never calls [sqlite3_close], so
    that a handle held before is dropped without being closed.  The
    constructor that opens leaves the engine as [open] on a fresh connection
    does, whether it returns or raises. *)
Theorem open_ignores_previous_handle (dbName : string) (flags : Z)
    (this that : SQLite) (w : world) :
  SQLite_open dbName flags this w = SQLite_open dbName flags that w
  /\ (exists calls,
        trace (world_of (SQLite_open dbName flags this w)) = trace w ++ calls
        /\ Forall (fun c => is_close c = false) calls)
  /\ (forall S (s : S),
        world_of (@SQLite_ctor S dbName flags s w)
        = world_of (SQLite_open dbName flags SQLite_default w)).
Proof.
  split; [by rewrite !SQLite_open_eq|]. split.
  - rewrite SQLite_open_eq. cbn zeta.
    destruct (react _ (sqlite3_open_v2 dbName (toSQLiteOpenFlags flags))
                (engine w)) as [[rc written] e].
    destruct (rc =? SQLITE_OK).
    + eexists. split; [reflexivity|]. by repeat constructor.
    + rewrite throwSQLiteError_no_sql. cbn [engine trace].
      destruct (diagnostics written false e)
        as [[[[code ext] errmsg] o] e'].
      eexists. unfold world_of. cbn [snd trace].
      rewrite <- app_assoc. split; [reflexivity|].
      apply Forall_app. split; [by repeat constructor|].
      apply diagnostic_calls_not_close.
  - intros S s. unfold SQLite_ctor, construct.
    by destruct (SQLite_open dbName flags SQLite_default w)
      as [[[a|x| |] o] w'].
Qed.

(** ** The keys of the column map *)

Lemma column_names_length s n i e : length (column_names s n i e).1 = n.
Proof.
  revert i e. induction n as [|n IH]; intros i e; cbn; [done|].
  destruct (react _ (sqlite3_column_name s i) e) as [name e1].
  specialize (IH (i + 1) e1).
  destruct (column_names s n (i + 1) e1) as [names e2]. cbn in *. by f_equal.
Qed.

Lemma last_occurrence_exists (names : list (option string)) name k :
  names !! k = Some (Some name) ->
  exists k', (k <= k')%nat /\ last_occurrence names name k'.
Proof.
  revert k. induction names as [|a names IH]; intros k Hk; [done|].
  assert (forall j, last_occurrence names name j ->
                    last_occurrence (a :: names) name (S j)) as Hstep.
  { intros j [Hj Hlast]. split; [done|].
    intros [|i] Hi; [lia|]. apply Hlast. lia. }
  destruct k as [|k].
  - destruct (decide (Some name ∈ names)) as [Hin|Hnotin].
    + apply list_elem_of_lookup in Hin as [j Hj].
      destruct (IH j Hj) as (k' & _ & Hk').
      exists (S k'). split; [lia|by apply Hstep].
    + exists 0%nat. split; [done|]. split; [done|].
      intros [|j] Hj Hl; [lia|]. apply Hnotin.
      apply list_elem_of_lookup. by exists j.
  - destruct (IH k Hk) as (k' & Hle & Hk').
    exists (S k'). split; [lia|by apply Hstep].
Qed.

(** X20: after a successful preparation, every index in the column map is the
    position of a column of that name; every named column resolves, to its
    own position or to a later column of the same name; and when no two
    columns share a name, the name of each column resolves to that
    column. *)
Theorem columnIndices_keys (h : ptr) (sql : string) (persistent : bool)
    (w : world) (written : ptr) (e : E) :
  react _ (sqlite3_prepare_v3 h sql (-1)
             (if persistent then SQLITE_PREPARE_PERSISTENT else 0)) (engine w)
    = (SQLITE_OK, written, e) ->
  let '(columnCount, e1) := react _ (sqlite3_column_count written) e in
  let names := (column_names written (Z.to_nat columnCount) 0 e1).1 in
  let this :=
    object_of (Statement_ctor h sql persistent Statement_default w) in
  (forall name i,
     columnIndices this !! name = Some i ->
     0 <= i < Z.max columnCount 0
     /\ names !! Z.to_nat i = Some (Some name))
  /\ (forall name k,
        names !! k = Some (Some name) ->
        exists i, columnIndices this !! name = Some i /\ Z.of_nat k <= i)
  /\ (NoDup names ->
      forall name k,
        names !! k = Some (Some name) ->
        columnIndices this !! name = Some (Z.of_nat k)).
Proof.
  intros Hr. pose proof (Statement_ctor_eq h sql persistent w written e Hr) as H.
  destruct (react _ (sqlite3_column_count written) e) as [columnCount e1].
  cbn zeta in H.
  pose proof (column_names_length written (Z.to_nat columnCount) 0 e1) as Hlen.
  destruct (column_names written (Z.to_nat columnCount) 0 e1) as [names e2].
  cbn [fst] in *. rewrite H. unfold object_of. cbn [fst snd columnIndices].
  assert (forall name i,
            index_columns names 0 ∅ !! name = Some i <->
            exists k, i = Z.of_nat k /\ last_occurrence names name k) as Hmap.
  { intros name i. rewrite index_columns_lookup. split.
    - intros [(k & -> & Hk)|[Hm _]]; [|by rewrite lookup_empty in Hm].
      exists k. split; [lia|done].
    - intros (k & -> & Hk). left. exists k. split; [lia|done]. }
  split; [|split].
  - intros name i Hi. apply Hmap in Hi as (k & -> & Hk & _).
    rewrite Nat2Z.id. split; [|done].
    apply lookup_lt_Some in Hk. lia.
  - intros name k Hk.
    destruct (last_occurrence_exists names name k Hk) as (k' & Hle & Hk').
    exists (Z.of_nat k'). split; [|lia]. apply Hmap. by exists k'.
  - intros Hnodup name k Hk. apply Hmap. exists k. split; [done|].
    split; [done|]. intros j Hj Hl.
    pose proof (NoDup_lookup _ _ _ _ Hnodup Hk Hl). lia.
Qed.

(** X21: an accessor called with a column name is the accessor called with the
    index the column map has for the name; for a name that is not in the
    map it raises [OtherError] without looking at the handle or calling the
    engine. *)
Theorem by_name_is_by_cached_index (accessor : selector -> StatementOp)
    (name : string) (this : Statement) (w : world) :
  accessor ∈ column_accessors ->
  Statement_run (accessor (at_name name)) this w =
  match columnIndices this !! name with
  | Some index => Statement_run (accessor (at_index index)) this w
  | None => (Raised (OtherError ("column not found: " +:+ name)), this, w)
  end.
Proof.
  unfold column_accessors. rewrite !elem_of_cons, elem_of_nil.
  intros H. repeat destruct H as [H|H]; try done; subst accessor;
    cbn [Statement_run column_at];
    unfold Statement_getColumnIndex, bind at 1 2, get;
    by destruct (columnIndices this !! name).
Qed.

(** ** Reading text *)

Lemma substring_prefix (n : nat) (s : string) :
  String.prefix (String.substring 0 n s) s = true.
Proof.
  revert n. induction s as [|c s IH]; intros [|n]; cbn; try done.
  destruct (Ascii.ascii_dec c c); [apply IH|done].
Qed.

Lemma substring_length (n : nat) (s : string) :
  (n <= String.length s)%nat -> String.length (String.substring 0 n s) = n.
Proof.
  revert n. induction s as [|c s IH]; intros [|n] Hn; cbn in *; try done;
    try lia.
  rewrite IH; lia.
Qed.

Lemma substring_all (s : string) :
  String.substring 0 (String.length s) s = s.
Proof. induction s as [|c s IH]; cbn; [done|]. by rewrite IH. Qed.

(** X22: [getString] on a prepared statement asks the engine for the text and
    then for its byte count, and leaves the statement as it is.  For a null
    text it returns the empty string; for a text of which the byte count
    does not exceed the length it returns the first bytes of the text, as
    many as the count says, and so the whole text when the count is its
    length. *)
Theorem getString_text (this : Statement) (index : Z) (w : world) :
  stmt this <> nullptr ->
  let '(text, e1) :=
    react _ (sqlite3_column_text (stmt this) index) (engine w) in
  let '(count, e2) := react _ (sqlite3_column_bytes (stmt this) index) e1 in
  let w' :=
    World e2 (trace w ++ [called (sqlite3_column_text (stmt this) index);
                          called (sqlite3_column_bytes (stmt this) index)]) in
  match text with
  | None => Statement_getString index this w = (Returned "", this, w')
  | Some text =>
      0 <= count <= Z.of_nat (String.length text) ->
      exists s,
        Statement_getString index this w = (Returned s, this, w')
        /\ String.prefix s text = true
        /\ Z.of_nat (String.length s) = count
        /\ (count = Z.of_nat (String.length text) -> s = text)
  end.
Proof.
  intros Hstmt. rewrite Statement_getString_eq by done.
  destruct (react _ (sqlite3_column_text (stmt this) index) (engine w))
    as [text e1].
  destruct (react _ (sqlite3_column_bytes (stmt this) index) e1)
    as [count e2].
  cbn zeta.
  destruct text as [text|]; [|reflexivity].
  intros Hcount. rewrite std_string_within by done.
  eexists. split; [reflexivity|].
  unfold string_of_buffer. split; [apply substring_prefix|]. split.
  - rewrite substring_length by lia. lia.
  - intros ->. by rewrite Nat2Z.id, substring_all.
Qed.
End Wrapper.

(** ** The theorems at concrete engines *)

Lemma error_classification_witness :
  "SELEC 1" <> "" /\
  throwSQLiteError script scripted 7 "failed to prepare statement" "SELEC 1"
    tt (World script syntax_script []) =
  (Raised (SyntaxError "failed to prepare statement"
             "near SELEC: syntax error" 1 1 "SELEC 1" 0),
   tt,
   World script syntax_script
     [called (sqlite3_errcode 7); called (sqlite3_extended_errcode 7);
      called (sqlite3_errmsg 7); called (sqlite3_error_offset 7)]) /\
  6 = SQLITE_LOCKED /\ -1 < 0 /\
  outcome_of script
    (throwSQLiteError script scripted 7 "failed to execute SQL query"
       "UPDATE t SET x = 1" tt (World script locked_script [])) =
  Raised (Error "failed to execute SQL query" "database table is locked"
            SQLITE_LOCKED 262).
Proof.
  split; [done|]. split.
  { exact (proj1 (proj1 (error_classification script scripted 7
                    "failed to prepare statement" "SELEC 1"
                    (World script syntax_script [])) ltac:(done) unit tt)). }
  split; [reflexivity|]. split; [done|].
  exact (proj2 (proj1 (error_classification script scripted 7
                  "failed to execute SQL query" "UPDATE t SET x = 1"
                  (World script locked_script [])) ltac:(done) unit tt)
           eq_refl ltac:(done)).
Defined.

Lemma exec_not_classified_as_claimed :
  ~ exec_classified_as_claimed script scripted.
Proof.
  intros H.
  specialize (H (mkSQLite 7) "UPDATE t SET x = 1"
                (World script locked_script []) ltac:(done)).
  cbn in H. specialize (H ltac:(done)). discriminate H.
Qed.

(** With empty SQL text a failing [exec] does not ask for the offset. *)
Example exec_empty_sql_no_offset :
  SQLite_exec script scripted "" (mkSQLite 7) (World script misuse_script [])
  = (Raised (MisuseError "failed to execute SQL query"
               "bad parameter or other API misuse" 21 21),
     mkSQLite 7,
     World script misuse_script
       [called (sqlite3_exec 7 ""); called (sqlite3_errcode 7);
        called (sqlite3_extended_errcode 7); called (sqlite3_errmsg 7)]).
Proof. reflexivity. Qed.

Lemma close_idempotent_retryable_witness :
  db (mkSQLite 7) <> nullptr /\
  SQLite_close script scripted (mkSQLite 7) (World script busy_script []) =
  (Raised (BusyError "failed to close connection" "database is locked" 5 5),
   mkSQLite 7,
   World script busy_script
     [called (sqlite3_close 7); called (sqlite3_errcode 7);
      called (sqlite3_extended_errcode 7); called (sqlite3_errmsg 7)]).
Proof.
  split; [done|].
  exact (proj2 (proj1 (proj2 (close_idempotent_retryable script scripted
                  (mkSQLite 7) (World script busy_script [])))
           ltac:(done) 5 busy_script eq_refl) ltac:(done)).
Defined.

Lemma step_outcomes_witness :
  stmt (mkStatement 7 ∅) <> nullptr /\
  scripted _ (sqlite3_step 7) row_script = (100, row_script) /\
  Statement_step script scripted (mkStatement 7 ∅) (World script row_script [])
  = (Returned true, mkStatement 7 ∅,
     World script row_script [called (sqlite3_step 7)]).
Proof.
  split; [done|]. split; [reflexivity|].
  exact (proj1 (step_outcomes script scripted (mkStatement 7 ∅)
                  (World script row_script []) 100 row_script
                  ltac:(done) eq_refl) eq_refl).
Defined.

Lemma failed_open_keeps_handle_witness :
  scripted _ (sqlite3_open_v2 "/no/such/dir/db"
                (toSQLiteOpenFlags OpenFlags.ReadOnly)) cantopen_script
    = (14, 7, cantopen_script) /\
  14 <> SQLITE_OK /\
  object_of script
    (SQLite_open script scripted "/no/such/dir/db" OpenFlags.ReadOnly
       (mkSQLite nullptr) (World script cantopen_script []))
  = mkSQLite 7.
Proof.
  split; [reflexivity|]. split; [done|].
  exact (proj1 (proj2 (failed_open_keeps_handle script scripted
                         (mkSQLite nullptr) "/no/such/dir/db"
                         OpenFlags.ReadOnly (World script cantopen_script [])
                         14 7 cantopen_script eq_refl ltac:(done)))).
Defined.

Lemma typed_reads_never_raise_witness :
  stmt (mkStatement 7 ∅) <> nullptr /\
  byte_count_within script scripted t_string 7 0 text_script /\
  exists v w',
    Statement_read script scripted t_string 0 (mkStatement 7 ∅)
      (World script text_script []) = (Returned v, mkStatement 7 ∅, w')
    /\ (absent script scripted t_string 7 0 text_script
        -> v = zero_value t_string).
Proof.
  assert (byte_count_within script scripted t_string 7 0 text_script)
    as Hbytes by (cbn; lia).
  split; [done|]. split; [exact Hbytes|].
  exact (typed_reads_never_raise script scripted t_string (mkStatement 7 ∅) 0
           (World script text_script []) ltac:(done) Hbytes).
Defined.

Lemma columnIndices_computed_once_witness :
  scripted _ (sqlite3_prepare_v3 7 "SELECT id, name, id FROM t" (-1) 0)
    ok_script = (SQLITE_OK, 7, ok_script) /\
  exists this,
    Statement_ctor script scripted 7 "SELECT id, name, id FROM t" false
      Statement_default (World script ok_script []) =
    (Returned tt, this,
     World script ok_script
       [called (sqlite3_prepare_v3 7 "SELECT id, name, id FROM t" (-1) 0);
        called (sqlite3_column_count 7); called (sqlite3_column_name 7 0);
        called (sqlite3_column_name 7 1); called (sqlite3_column_name 7 2)])
    /\ stmt this = 7
    /\ forall name i,
         columnIndices this !! name = Some i <->
         exists k, i = Z.of_nat k /\
           last_occurrence [Some "id"; Some "name"; Some "id"] name k.
Proof.
  split; [reflexivity|].
  exact (proj1 (columnIndices_computed_once script scripted false)
           7 "SELECT id, name, id FROM t" false (World script ok_script [])
           7 ok_script eq_refl).
Defined.

Example duplicate_column_resolves_to_last :
  Statement_getColumnIndex script "id"
    (mkStatement 7 (index_columns [Some "id"; Some "name"; Some "id"] 0 ∅))
    (World script ok_script [])
  = (Returned 2,
     mkStatement 7 (index_columns [Some "id"; Some "name"; Some "id"] 0 ∅),
     World script ok_script []).
Proof. reflexivity. Qed.

Lemma null_handle_guard_witness :
  Statement_checks_handle false op_step = true /\
  stmt Statement_default = nullptr /\
  Statement_run script scripted false op_step Statement_default
    (World script ok_script [])
  = (Raised (OtherError "SQLite statement not initialized"),
     Statement_default, World script ok_script []).
Proof.
  split; [reflexivity|]. split; [reflexivity|].
  exact (proj1 (null_handle_guard script scripted false) op_step eq_refl
           Statement_default (World script ok_script []) eq_refl).
Defined.

(** [open] and [operator bool] are public operations, and on a null handle
    the one calls the engine and returns, the other returns false. *)
Lemma open_on_null_handle_not_rejected :
  ~ SQLite_rejects_null script scripted (op_open "test.db" OpenFlags.ReadWrite)
  /\ ~ Statement_rejects_null script scripted false op_bool.
Proof.
  split; intros H.
  - specialize (H (mkSQLite nullptr) (World script ok_script []) eq_refl).
    vm_compute in H. discriminate H.
  - specialize (H Statement_default (World script ok_script []) eq_refl).
    vm_compute in H. discriminate H.
Qed.

Example open_on_null_handle :
  SQLite_run script scripted (op_open "test.db" OpenFlags.ReadWrite)
    (mkSQLite nullptr) (World script ok_script [])
  = (Returned v_void, mkSQLite 7,
     World script ok_script
       [called (sqlite3_open_v2 "test.db" SQLITE_OPEN_READWRITE)]).
Proof. reflexivity. Qed.

Example bool_on_null_handle :
  Statement_run script scripted false op_bool Statement_default
    (World script ok_script [])
  = (Returned (v_bool false), Statement_default, World script ok_script []).
Proof. reflexivity. Qed.

Example getColumnIndex_on_null_handle :
  Statement_run script scripted false (op_getColumnIndex "id")
    Statement_default (World script ok_script [])
  = (Raised (OtherError "column not found: id"), Statement_default,
     World script ok_script []).
Proof. reflexivity. Qed.

Lemma moved_from_guard_witness :
  SQLite_moved_from script scripted
    (object_of script
       (SQLite_move_ctor script (mkSQLite 7) (World script ok_script []))) /\
  SQLite_dtor script scripted
    (object_of script
       (SQLite_move_ctor script (mkSQLite 7) (World script ok_script [])))
    (World script ok_script [])
  = (Returned tt, mkSQLite nullptr, World script ok_script []).
Proof.
  split; [constructor|].
  exact (proj2 (proj2 (proj1 (moved_from_guard script scripted false) _
           (SQLite_moved_by_ctor script scripted (mkSQLite 7)
              (World script ok_script []))))
           (World script ok_script [])).
Defined.

(** A moved-from connection answers [operator bool] with false, and does
    not raise. *)
Lemma moved_from_not_unusable :
  ~ SQLite_unusable script scripted
      (object_of script
         (SQLite_move_ctor script (mkSQLite 7) (World script ok_script []))).
Proof.
  intros H. specialize (H op_SQLite_bool (World script ok_script [])).
  vm_compute in H. discriminate H.
Qed.

Example bool_on_moved_from :
  SQLite_run script scripted op_SQLite_bool
    (object_of script
       (SQLite_move_ctor script (mkSQLite 7) (World script ok_script [])))
    (World script ok_script [])
  = (Returned (v_bool false), mkSQLite nullptr, World script ok_script []).
Proof. reflexivity. Qed.

(** A move assignment of an object to itself changes nothing. *)
Example self_move_assign (objects : heap SQLite) :
  SQLite_move_assign script scripted 0 0 objects (World script ok_script [])
  = (Returned tt, objects, World script ok_script []).
Proof. reflexivity. Qed.



Example configureSerialized_refused :
  SQLite_configureSerialized script scripted tt (World script misuse_script [])
  = (Returned
       (Some (Error "failed to configure SQLite for serialized threading mode"
                "bad parameter or other API misuse" 21 21)),
     tt,
     World script misuse_script
       [called (sqlite3_config SQLITE_CONFIG_SERIALIZED);
        called (sqlite3_errstr 21)]).
Proof. reflexivity. Qed.

(** A statement that cannot run because a table is locked: the code is
    [SQLITE_LOCKED], not [SQLITE_BUSY], and the base [Error] is raised. *)
Example locked_exec_raises_base_Error :
  SQLite_exec script scripted "UPDATE t SET x = 1" (mkSQLite 7)
    (World script locked_script [])
  = (Raised (Error "failed to execute SQL query" "database table is locked"
               6 262),
     mkSQLite 7,
     World script locked_script
       [called (sqlite3_exec 7 "UPDATE t SET x = 1"); called (sqlite3_errcode 7);
        called (sqlite3_extended_errcode 7); called (sqlite3_errmsg 7);
        called (sqlite3_error_offset 7)]).
Proof. reflexivity. Qed.

(** A byte count below zero makes the constructor of [std::string] throw
    [std::length_error], which is none of the wrapper's exceptions; a byte
    count beyond the buffer and its terminator makes it read past the
    end. *)
Example std_string_negative_byte_count :
  std_string script "abc" (-1) (mkStatement 7 ∅) (World script text_script [])
  = (Raised (length_error "basic_string::_M_create"), mkStatement 7 ∅,
     World script text_script []).
Proof. reflexivity. Qed.

Example std_string_past_the_end :
  std_string script "abc" 5 (mkStatement 7 ∅) (World script text_script [])
  = (Undefined, mkStatement 7 ∅, World script text_script []).
Proof. reflexivity. Qed.

(** The conversion to [int] keeps a length below 2^31 and wraps the
    others. *)
Example to_int_wraps : to_int 3 = 3 /\ to_int (2 ^ 31) = - 2 ^ 31.
Proof. split; reflexivity. Qed.

(** The views by index are built without looking at the handle. *)
Example subscript_on_null_handle :
  Statement_run script scripted false (op_subscript (at_index 0))
    Statement_default (World script ok_script [])
  = (Returned (v_Column 0), Statement_default, World script ok_script []).
Proof. reflexivity. Qed.

(** The source of a move construction keeps the entries of its column map,
    and still resolves names. *)
Example getColumnIndex_on_moved_from :
  Statement_getColumnIndex script "id"
    (object_of script
       (Statement_move_ctor script (mkStatement 7 {["id" := 0]})
          (World script ok_script [])))
    (World script ok_script [])
  = (Returned 0, mkStatement nullptr {["id" := 0]}, World script ok_script []).
Proof. reflexivity. Qed.

Lemma getColumnType_codes_witness :
  stmt (mkStatement 7 ∅) <> nullptr /\
  Statement_getColumnType script scripted 0 (mkStatement 7 ∅)
    (World script ok_script [])
  = (Raised (OtherError "unknown column type"), mkStatement 7 ∅,
     World script ok_script [called (sqlite3_column_type 7 0)]).
Proof.
  split; [done|].
  apply (proj2 (getColumnType_codes script scripted (mkStatement 7 ∅) 0
                  (World script ok_script []) ltac:(done))).
  cbn. lia.
Defined.

Lemma unknown_parameter_witness :
  stmt (mkStatement 7 ∅) <> nullptr /\
  Statement_bind_name script scripted ":id" (as_int 5) (mkStatement 7 ∅)
    (World script ok_script [])
  = (Raised (OtherError "parameter not found: :id"), mkStatement 7 ∅,
     World script ok_script [called (sqlite3_bind_parameter_index 7 ":id")]).
Proof.
  split; [done|].
  exact (proj2 (proj2 (proj1 (unknown_parameter script scripted false
           (mkStatement 7 ∅) ":id" (World script ok_script []) ltac:(done))
           eq_refl)) (as_int 5)).
Defined.

Lemma metadata_getters_disabled_witness :
  false = false /\
  Statement_getColumnTableName script scripted false 0 Statement_default
    (World script ok_script [])
  = (Raised (OtherError
       "column metadata not enabled, to enable, define SQLITE_ENABLE_COLUMN_METADATA"),
     Statement_default, World script ok_script []).
Proof.
  split; [done|].
  exact (proj1 (proj2 (metadata_getters_disabled script scripted false
           Statement_default 0 (World script ok_script []) eq_refl))).
Defined.


Lemma reuse_reset_then_clear_witness :
  stmt (mkStatement 7 ∅) <> nullptr /\
  Statement_reuse script scripted (mkStatement 7 ∅)
    (World script busy_script [])
  = (Raised (BusyError "failed to reset statement" "database is locked" 5 5),
     mkStatement 7 ∅,
     World script busy_script
       [called (sqlite3_reset 7); called (sqlite3_db_handle 7);
        called (sqlite3_errcode 7); called (sqlite3_extended_errcode 7);
        called (sqlite3_errmsg 7)]).
Proof.
  split; [done|].
  exact (proj2 (reuse_reset_then_clear script scripted (mkStatement 7 ∅)
                  (World script busy_script []) ltac:(done)) ltac:(done)).
Defined.

Lemma finalize_outcomes_witness :
  stmt (mkStatement 7 {["id" := 0]}) <> nullptr /\
  Statement_finalize script scripted (mkStatement 7 {["id" := 0]})
    (World script ok_script [])
  = (Returned tt, mkStatement nullptr {["id" := 0]},
     World script ok_script [called (sqlite3_finalize 7)]) /\
  5 <> SQLITE_OK /\
  Statement_finalize script scripted (mkStatement 7 {["id" := 0]})
    (World script busy_script [])
  = (Undefined, mkStatement 7 {["id" := 0]},
     World script busy_script
       [called (sqlite3_finalize 7); called (sqlite3_db_handle 7)]).
Proof.
  split; [done|]. split.
  { exact (proj1 (proj1 (proj2 (finalize_outcomes script scripted
             (mkStatement 7 {["id" := 0]}) (World script ok_script [])))
             ltac:(done)) eq_refl). }
  split; [done|].
  exact (proj2 (proj1 (proj2 (finalize_outcomes script scripted
           (mkStatement 7 {["id" := 0]}) (World script busy_script [])))
           ltac:(done)) ltac:(done)).
Defined.

Lemma use_after_finalize_witness :
  outcome_of script
    (Statement_finalize script scripted (mkStatement 7 ∅)
       (World script ok_script [])) = Returned tt /\
  Statement_run script scripted false op_step
    (object_of script
       (Statement_finalize script scripted (mkStatement 7 ∅)
          (World script ok_script [])))
    (World script ok_script [])
  = (Raised (OtherError "SQLite statement not initialized"),
     mkStatement nullptr ∅, World script ok_script []).
Proof.
  split; [reflexivity|].
  exact (proj1 (proj2 (proj2 (use_after_finalize script scripted false
           (mkStatement 7 ∅) (World script ok_script []) eq_refl)))
           op_step (World script ok_script []) eq_refl).
Defined.

Lemma Statement_move_assign_transfers_witness :
  0%nat <> 1%nat /\
  outcome_of script
    (Statement_move_assign script scripted 0 1
       (fun a => if (a =? 1)%nat then mkStatement 7 {["id" := 0]}
                 else mkStatement 9 ∅)
       (World script ok_script [])) = Returned tt /\
  object_of script
    (Statement_move_assign script scripted 0 1
       (fun a => if (a =? 1)%nat then mkStatement 7 {["id" := 0]}
                 else mkStatement 9 ∅)
       (World script ok_script [])) 0%nat
  = mkStatement 7 {["id" := 0]} /\
  stmt (mkStatement 9 ∅) <> nullptr /\
  (scripted _ (sqlite3_finalize 9) busy_script).1 <> SQLITE_OK /\
  outcome_of script
    (Statement_move_assign script scripted 0 1
       (fun a => if (a =? 1)%nat then mkStatement 7 {["id" := 0]}
                 else mkStatement 9 ∅)
       (World script busy_script [])) = Undefined.
Proof.
  split; [done|]. split; [reflexivity|]. split.
  { exact (proj1 (proj1 (Statement_move_assign_transfers script scripted 0 1
             (fun a => if (a =? 1)%nat then mkStatement 7 {["id" := 0]}
                       else mkStatement 9 ∅)
             (World script ok_script []) ltac:(done)) eq_refl)). }
  split; [done|]. split; [done|].
  exact (proj1 (proj1 (proj2 (Statement_move_assign_transfers script scripted
           0 1
           (fun a => if (a =? 1)%nat then mkStatement 7 {["id" := 0]}
                     else mkStatement 9 ∅)
           (World script busy_script []) ltac:(done)))
           ltac:(done) ltac:(done))).
Defined.

Lemma SQLite_move_assign_transfers_witness :
  0%nat <> 1%nat /\
  outcome_of script
    (SQLite_move_assign script scripted 0 1
       (fun a => if (a =? 1)%nat then mkSQLite 7 else mkSQLite nullptr)
       (World script ok_script [])) = Returned tt /\
  object_of script
    (SQLite_move_assign script scripted 0 1
       (fun a => if (a =? 1)%nat then mkSQLite 7 else mkSQLite nullptr)
       (World script ok_script [])) 0%nat
  = mkSQLite 7.
Proof.
  split; [done|]. split; [reflexivity|].
  exact (proj1 (proj1 (SQLite_move_assign_transfers script scripted 0 1
           (fun a => if (a =? 1)%nat then mkSQLite 7 else mkSQLite nullptr)
           (World script ok_script []) ltac:(done)) eq_refl)).
Defined.

Lemma destructor_outcomes_witness :
  db (mkSQLite 7) <> nullptr /\
  5 <> SQLITE_OK /\
  outcome_of script
    (SQLite_dtor script scripted (mkSQLite 7) (World script busy_script []))
  = Terminated /\
  stmt (mkStatement 7 ∅) <> nullptr /\
  Statement_dtor script scripted (mkStatement 7 ∅)
    (World script busy_script [])
  = (Undefined, mkStatement 7 ∅,
     World script busy_script
       [called (sqlite3_finalize 7); called (sqlite3_db_handle 7)]).
Proof.
  split; [done|]. split; [done|]. split.
  { exact (proj1 (proj2 (proj2 (proj1 (destructor_outcomes script scripted)
             (mkSQLite 7) (World script busy_script [])) ltac:(done))
             ltac:(done))). }
  split; [done|].
  exact (proj2 (proj2 (proj2 (destructor_outcomes script scripted)
           (mkStatement 7 ∅) (World script busy_script [])) ltac:(done))
           ltac:(done)).
Defined.

Lemma operations_keep_the_object_witness :
  op_step <> op_finalize /\
  object_of script
    (Statement_run script scripted false op_step (mkStatement 7 ∅)
       (World script busy_script []))
  = mkStatement 7 ∅.
Proof.
  split; [done|].
  exact (proj1 (operations_keep_the_object script scripted false) op_step
           (mkStatement 7 ∅) (World script busy_script []) ltac:(done)).
Defined.

Lemma prepare_outcomes_witness :
  db (mkSQLite 7) <> nullptr /\
  SQLite_prepare script scripted "SELEC 1" true (mkSQLite 7)
    (World script syntax_script [])
  = (Raised (SyntaxError "failed to prepare statement"
               "near SELEC: syntax error" 1 1 "SELEC 1" 0),
     mkSQLite 7,
     World script syntax_script
       [called (sqlite3_prepare_v3 7 "SELEC 1" (-1) SQLITE_PREPARE_PERSISTENT);
        called (sqlite3_errcode 7); called (sqlite3_extended_errcode 7);
        called (sqlite3_errmsg 7); called (sqlite3_error_offset 7)]).
Proof.
  split; [done|].
  exact (proj1 (prepare_outcomes script scripted false (mkSQLite 7) "SELEC 1" true
                  (World script syntax_script []) ltac:(done)) ltac:(done)).
Defined.

Lemma columnIndices_keys_witness :
  scripted _ (sqlite3_prepare_v3 7 "SELECT id, name, id FROM t" (-1) 0)
    ok_script = (SQLITE_OK, 7, ok_script) /\
  forall name i,
    columnIndices
      (object_of script
         (Statement_ctor script scripted 7 "SELECT id, name, id FROM t" false
            Statement_default (World script ok_script []))) !! name = Some i ->
    0 <= i < 3 /\
    [Some "id"; Some "name"; Some "id"] !! Z.to_nat i = Some (Some name).
Proof.
  split; [reflexivity|].
  exact (proj1 (columnIndices_keys script scripted 7
                  "SELECT id, name, id FROM t" false
                  (World script ok_script []) 7 ok_script eq_refl)).
Defined.

Lemma by_name_is_by_cached_index_witness :
  op_read t_int ∈ column_accessors /\
  Statement_run script scripted false (op_read t_int (at_name "id"))
    (mkStatement 7 {["id" := 2]}) (World script ok_script [])
  = Statement_run script scripted false (op_read t_int (at_index 2))
      (mkStatement 7 {["id" := 2]}) (World script ok_script []).
Proof.
  assert (op_read t_int ∈ column_accessors) as Hin.
  { unfold column_accessors. repeat constructor. }
  split; [exact Hin|].
  exact (by_name_is_by_cached_index script scripted false (op_read t_int)
           "id" (mkStatement 7 {["id" := 2]}) (World script ok_script []) Hin).
Defined.

Lemma getString_text_witness :
  stmt (mkStatement 7 ∅) <> nullptr /\
  0 <= 3 <= Z.of_nat (String.length "abc") /\
  exists s,
    Statement_getString script scripted 0 (mkStatement 7 ∅)
      (World script (Script 0 0 0 "not an error" (-1) 7 [] 0 (Some "abc")) [])
    = (Returned s, mkStatement 7 ∅,
       World script (Script 0 0 0 "not an error" (-1) 7 [] 0 (Some "abc"))
         [called (sqlite3_column_text 7 0); called (sqlite3_column_bytes 7 0)])
    /\ String.prefix s "abc" = true
    /\ Z.of_nat (String.length s) = 3
    /\ (3 = Z.of_nat (String.length "abc") -> s = "abc").
Proof.
  split; [done|]. split; [done|].
  exact (getString_text script scripted (mkStatement 7 ∅) 0
           (World script (Script 0 0 0 "not an error" (-1) 7 [] 0 (Some "abc"))
              [])
           ltac:(done) ltac:(done)).
Defined.

Lemma to_string_injective_witness :
  to_string Text = to_string Text /\ Text = Text.
Proof.
  split; [reflexivity|].
  exact (proj1 (to_string_injective Text Text) eq_refl).
Defined.

Example toSQLiteOpenFlags_read_write_create_uri :
  toSQLiteOpenFlags
    (OpenFlags_or OpenFlags.ReadWrite
       (OpenFlags_or OpenFlags.Create OpenFlags.URI))
  = Z.lor SQLITE_OPEN_READWRITE (Z.lor SQLITE_OPEN_CREATE SQLITE_OPEN_URI).
Proof. reflexivity. Qed.
